(** * Cueron Client API: a shallow embedding of [main.py] and [schemas.py]

    The development follows the layout of the service:

    - Python values, dictionaries and the few built-ins the handlers use;
    - [datetime] and [isoformat], [bson.ObjectId];
    - the Pydantic models of [schemas.py] with their validators and
      [model_dump];
    - the persistence gateway ([database.py]);
    - the route handlers of [main.py] and the request pipeline around them;
    - the properties of the service. *)

From Stdlib Require Import ZArith NArith String Ascii List Lia.
From Stdlib Require QArith.
From Stdlib.Strings Require Byte.
From stdpp Require Import base option list strings gmap pretty.

Set Warnings "-register-all".

Local Open Scope string_scope.
Local Open Scope Z_scope.

Abbreviation Q := QArith_base.Q.
Abbreviation byte := Byte.byte.

#[global] Instance byte_eq_dec : EqDecision byte := Byte.byte_eq_dec.

#[global] Instance Q_eq_dec : EqDecision Q.
Proof. intros [a b] [c d]. unfold Decision. repeat decide equality. Defined.

(** ** datetime *)

(** A [datetime.datetime].  [tzoffset] is the UTC offset in seconds of an
    aware value and [None] for a naive one. *)
Record datetime := mk_datetime {
  year : N; month : N; day : N;
  hour : N; minute : N; second : N; microsecond : N;
  tzoffset : option Z
}.

#[global] Instance datetime_eq_dec : EqDecision datetime.
Proof. solve_decision. Defined.

Definition is_leap (y : N) : bool :=
  ((y mod 4 =? 0) && (negb (y mod 100 =? 0) || (y mod 400 =? 0)))%N.

Definition days_in_month (y m : N) : N :=
  (if m =? 2 then (if is_leap y then 29 else 28)
   else if (m =? 4) || (m =? 6) || (m =? 9) || (m =? 11) then 30 else 31)%N.

(** The ranges the [datetime] constructor enforces. *)
Definition datetime_ok (d : datetime) : bool :=
  ((1 <=? year d) && (year d <=? 9999) &&
   (1 <=? month d) && (month d <=? 12) &&
   (1 <=? day d) && (day d <=? days_in_month (year d) (month d)) &&
   (hour d <? 24) && (minute d <? 60) && (second d <? 60) &&
   (microsecond d <? 1000000))%N &&
  match tzoffset d with
  | None => true
  | Some o => (-86400 <? o) && (o <? 86400)
  end.

(** [timezone.utc] *)
Definition utc : option Z := Some 0.

Definition digit (n : N) : ascii := ascii_of_N (48 + n mod 10).

(** ["%0wd" % n], for the [n < 10^w] that the fields of a [datetime] are. *)
Fixpoint zfill (w : nat) (n : N) : string :=
  match w with
  | O => ""
  | S w' => zfill w' (n / 10) +:+ String (digit n) ""
  end.

Definition format_offset (o : Z) : string :=
  let a := Z.to_N (Z.abs o) in
  (if o <? 0 then "-" else "+") +:+
  zfill 2 (a / 3600) +:+ ":" +:+ zfill 2 ((a mod 3600) / 60) +:+
  (if (a mod 60 =? 0)%N then "" else ":" +:+ zfill 2 (a mod 60)).

(** [datetime.isoformat(sep)] *)
Definition isoformat_sep (sep : string) (d : datetime) : string :=
  zfill 4 (year d) +:+ "-" +:+ zfill 2 (month d) +:+ "-" +:+ zfill 2 (day d) +:+
  sep +:+
  zfill 2 (hour d) +:+ ":" +:+ zfill 2 (minute d) +:+ ":" +:+ zfill 2 (second d) +:+
  (if (microsecond d =? 0)%N then "" else "." +:+ zfill 6 (microsecond d)) +:+
  match tzoffset d with
  | None => ""
  | Some o => format_offset o
  end.

(** [datetime.isoformat()] *)
Definition isoformat : datetime → string := isoformat_sep "T".

(** ** bson.ObjectId *)

Definition hex_digit (n : N) : ascii :=
  (if n <? 10 then ascii_of_N (48 + n) else ascii_of_N (87 + n))%N.

(** [binascii.hexlify]: two lower-case digits per byte. *)
Fixpoint hexlify (bs : list byte) : string :=
  match bs with
  | [] => ""
  | b :: bs' =>
      let n := Byte.to_N b in
      String (hex_digit (n / 16)) (String (hex_digit (n mod 16)) (hexlify bs'))
  end.

Definition hex_value (c : ascii) : option N :=
  let n := N_of_ascii c in
  (if (48 <=? n) && (n <=? 57) then Some (n - 48)
   else if (97 <=? n) && (n <=? 102) then Some (n - 87)
   else if (65 <=? n) && (n <=? 70) then Some (n - 55)
   else None)%N.

(** [Py_ISSPACE]: space, and the controls 9 to 13. *)
Definition is_space (c : ascii) : bool :=
  let n := N_of_ascii c in ((n =? 32) || ((9 <=? n) && (n <=? 13)))%N.

(** [bytes.fromhex]: white space is skipped between pairs of digits, a pair
    is two adjacent hexadecimal digits; anything else raises [ValueError]. *)
Fixpoint fromhex (s : string) : option (list byte) :=
  match s with
  | "" => Some []
  | String c s' =>
      if is_space c then fromhex s'
      else match s' with
           | "" => None
           | String c' s'' =>
               match hex_value c, hex_value c' with
               | Some h, Some l =>
                   match Byte.of_N (16 * h + l), fromhex s'' with
                   | Some b, Some bs => Some (b :: bs)
                   | _, _ => None
                   end
               | _, _ => None
               end
           end
  end.

(** An [ObjectId] is its twelve bytes. *)
Definition ObjectId_t := list byte.

(** [ObjectId(oid)] for a [str] argument: the text must have 24 characters
    and go through [bytes.fromhex]; otherwise [InvalidId] is raised, which
    is [None] here. *)
Definition ObjectId (oid : string) : option ObjectId_t :=
  if (String.length oid =? 24)%nat then fromhex oid else None.

(** [str(ObjectId)] *)
Definition ObjectId_str (o : ObjectId_t) : string := hexlify o.

(** ** Python values *)

(** The values that travel through the service: parsed JSON bodies,
    [model_dump()] output and stored documents.  A [dict] keeps its
    insertion order. *)
Inductive value :=
| VNone
| VBool (b : bool)
| VInt (z : Z)
| VFloat (q : Q)
| VStr (s : string)
| VObjectId (o : ObjectId_t)
| VDatetime (t : datetime)
| VList (l : list value)
| VDict (d : list (string * value)).

Abbreviation dict := (list (string * value)).

Section value_ind_nested.
Variable P : value → Prop.
Hypothesis HNone : P VNone.
Hypothesis HBool : ∀ b, P (VBool b).
Hypothesis HInt : ∀ z, P (VInt z).
Hypothesis HFloat : ∀ q, P (VFloat q).
Hypothesis HStr : ∀ s, P (VStr s).
Hypothesis HOid : ∀ o, P (VObjectId o).
Hypothesis HDatetime : ∀ t, P (VDatetime t).
Hypothesis HList : ∀ l, Forall P l → P (VList l).
Hypothesis HDict : ∀ d, Forall (λ kv, P kv.2) d → P (VDict d).

Fixpoint value_ind' (v : value) : P v :=
  match v with
  | VNone => HNone
  | VBool b => HBool b
  | VInt z => HInt z
  | VFloat q => HFloat q
  | VStr s => HStr s
  | VObjectId o => HOid o
  | VDatetime t => HDatetime t
  | VList l =>
      HList l ((fix go (l : list value) : Forall P l :=
                  match l with
                  | [] => Forall_nil_2 P
                  | x :: l' => Forall_cons_2 P x l' (value_ind' x) (go l')
                  end) l)
  | VDict d =>
      HDict d ((fix go (d : dict) : Forall (λ kv, P kv.2) d :=
                  match d with
                  | [] => Forall_nil_2 _
                  | kv :: d' => Forall_cons_2 _ kv d' (value_ind' kv.2) (go d')
                  end) d)
  end.
End value_ind_nested.

(** [==] on values, structurally. *)
Fixpoint value_eqb (a b : value) : bool :=
  match a, b with
  | VNone, VNone => true
  | VBool x, VBool y => bool_decide (x = y)
  | VInt x, VInt y => bool_decide (x = y)
  | VFloat x, VFloat y => bool_decide (x = y)
  | VStr x, VStr y => bool_decide (x = y)
  | VObjectId x, VObjectId y => bool_decide (x = y)
  | VDatetime x, VDatetime y => bool_decide (x = y)
  | VList x, VList y =>
      (fix go (x y : list value) : bool :=
         match x, y with
         | [], [] => true
         | u :: x', w :: y' => value_eqb u w && go x' y'
         | _, _ => false
         end) x y
  | VDict x, VDict y =>
      (fix go (x y : dict) : bool :=
         match x, y with
         | [], [] => true
         | (k, u) :: x', (k', w) :: y' =>
             bool_decide (k = k') && value_eqb u w && go x' y'
         | _, _ => false
         end) x y
  | _, _ => false
  end.

(** [d.get(k)] *)
Fixpoint dict_get (d : dict) (k : string) : option value :=
  match d with
  | [] => None
  | (k', v) :: d' => if bool_decide (k' = k) then Some v else dict_get d' k
  end.

(** [d[k] = v]: an existing key keeps its place, a new one goes last. *)
Fixpoint dict_set (d : dict) (k : string) (v : value) : dict :=
  match d with
  | [] => [(k, v)]
  | (k', v') :: d' =>
      if bool_decide (k' = k) then (k', v) :: d' else (k', v') :: dict_set d' k v
  end.

(** Truth value of a [str]: the empty string is false. *)
Definition str_truthy (s : string) : bool := negb (bool_decide (s = "")).

(** Truth value of an [Optional[str]]. *)
Definition opt_str_truthy (s : option string) : bool :=
  match s with
  | None => false
  | Some s => str_truthy s
  end.

Definition VOptStr (s : option string) : value :=
  match s with None => VNone | Some s => VStr s end.

Definition VOptInt (z : option Z) : value :=
  match z with None => VNone | Some z => VInt z end.

Definition VOptDatetime (t : option datetime) : value :=
  match t with None => VNone | Some t => VDatetime t end.

Definition VStrList (l : list string) : value := VList (VStr <$> l).

Definition VDictList (l : list dict) : value := VList (VDict <$> l).

(** ** Validation (Pydantic) *)

(** The kinds of validation error the models of [schemas.py] can produce. *)
Inductive verror_type :=
| missing | model_type
| string_type | int_type | float_type | bool_type | list_type | dict_type
| datetime_type
| literal_error | greater_than_equal | less_than_equal.

Record verror := mk_verror { loc : list string; err : verror_type }.

(** Either all the errors found, or the validated value. *)
Definition validated (A : Type) : Type := (list verror + A)%type.

Definition fail {A} (e : verror_type) : validated A := inl [mk_verror [] e].

Definition at_loc {A} (k : string) (r : validated A) : validated A :=
  match r with
  | inl es => inl ((λ e, mk_verror (k :: loc e) (err e)) <$> es)
  | inr a => inr a
  end.

Definition vmap {A B} (f : A → B) (r : validated A) : validated B :=
  match r with
  | inl es => inl es
  | inr a => inr (f a)
  end.

(** Fields are validated independently and their errors are collected. *)
Definition vap {A B} (f : validated (A → B)) (x : validated A) : validated B :=
  match f, x with
  | inr f, inr x => inr (f x)
  | inl e, inr _ => inl e
  | inr _, inl e => inl e
  | inl e1, inl e2 => inl (e1 ++ e2)%list
  end.

Infix "<*>" := vap (at level 61, left associativity).

Definition rejected {A} (r : validated A) : Prop :=
  match r with inl _ => True | inr _ => False end.

Definition str_ (v : value) : validated string :=
  match v with VStr s => inr s | _ => fail string_type end.

Definition int_ (v : value) : validated Z :=
  match v with VInt z => inr z | _ => fail int_type end.

Definition float_ (v : value) : validated Q :=
  match v with
  | VFloat q => inr q
  | VInt z => inr (QArith_base.inject_Z z)
  | _ => fail float_type
  end.

Definition bool_ (v : value) : validated bool :=
  match v with VBool b => inr b | _ => fail bool_type end.

Definition dict_ (v : value) : validated dict :=
  match v with VDict d => inr d | _ => fail dict_type end.

(** [Optional[T]] *)
Definition Optional {A} (p : value → validated A) (v : value) : validated (option A) :=
  match v with
  | VNone => inr None
  | _ => vmap Some (p v)
  end.

Fixpoint validate_items {A} (p : value → validated A) (i : nat) (l : list value)
  : validated (list A) :=
  match l with
  | [] => inr []
  | x :: l' => inr cons <*> at_loc (pretty i) (p x) <*> validate_items p (S i) l'
  end.

(** [List[T]] *)
Definition List_ {A} (p : value → validated A) (v : value) : validated (list A) :=
  match v with
  | VList l => validate_items p 0 l
  | _ => fail list_type
  end.

Fixpoint assoc {A} (k : string) (l : list (string * A)) : option A :=
  match l with
  | [] => None
  | (k', a) :: l' => if bool_decide (k' = k) then Some a else assoc k l'
  end.

(** [Literal[...]]: the value has to be one of the listed strings. *)
Definition Literal {A} (choices : list (string * A)) (v : value) : validated A :=
  match v with
  | VStr s => match assoc s choices with
              | Some a => inr a
              | None => fail literal_error
              end
  | _ => fail literal_error
  end.

(** [Field(..., ge=lo, le=hi)] on an [int]. *)
Definition ge_le (lo hi : Z) (v : value) : validated Z :=
  match int_ v with
  | inl es => inl es
  | inr z => if z <? lo then fail greater_than_equal
             else if hi <? z then fail less_than_equal
             else inr z
  end.

(** A field without default: [Field(...)] or a bare annotation. *)
Definition required {A} (k : string) (p : value → validated A) (d : dict) : validated A :=
  match dict_get d k with
  | None => inl [mk_verror [k] missing]
  | Some v => at_loc k (p v)
  end.

(** A field with a default (or a [default_factory]). *)
Definition optional {A} (k : string) (dflt : A) (p : value → validated A) (d : dict)
  : validated A :=
  match dict_get d k with
  | None => inr dflt
  | Some v => at_loc k (p v)
  end.

(** [BaseModel]: what the gateway needs of a model is its [model_dump()]. *)
Class BaseModel (A : Type) := model_dump : A → dict.

(** ** schemas.py *)

Inductive service_type_t := AMC | Repair | Installation | Emergency.
Inductive job_status_t := New | Assigned | Travelling | In_Progress | Closed.
Inductive asset_status_t := active | inactive | maintenance.
Inductive invoice_status_t := unpaid | paid | overdue.

Definition service_types : list (string * service_type_t) :=
  [("AMC", AMC); ("Repair", Repair); ("Installation", Installation);
   ("Emergency", Emergency)].

Definition job_statuses : list (string * job_status_t) :=
  [("New", New); ("Assigned", Assigned); ("Travelling", Travelling);
   ("In Progress", In_Progress); ("Closed", Closed)].

Definition asset_statuses : list (string * asset_status_t) :=
  [("active", active); ("inactive", inactive); ("maintenance", maintenance)].

Definition invoice_statuses : list (string * invoice_status_t) :=
  [("unpaid", unpaid); ("paid", paid); ("overdue", overdue)].

Definition service_type_str (s : service_type_t) : string :=
  match s with
  | AMC => "AMC" | Repair => "Repair" | Installation => "Installation"
  | Emergency => "Emergency"
  end.

Definition job_status_str (s : job_status_t) : string :=
  match s with
  | New => "New" | Assigned => "Assigned" | Travelling => "Travelling"
  | In_Progress => "In Progress" | Closed => "Closed"
  end.

Definition asset_status_str (s : asset_status_t) : string :=
  match s with
  | active => "active" | inactive => "inactive" | maintenance => "maintenance"
  end.

Definition invoice_status_str (s : invoice_status_t) : string :=
  match s with
  | unpaid => "unpaid" | paid => "paid" | overdue => "overdue"
  end.

Module Site.
Record t := mk {
  name : string;
  address : option string;
  city : option string;
  state : option string;
  pincode : option string
}.
End Site.

Module Asset.
Record t := mk {
  site_id : string;
  name : string;
  type : string;
  status : asset_status_t;
  serial_number : option string;
  model : option string
}.
End Asset.

Module JobRequest.
Record t := mk {
  service_type : service_type_t;
  site_id : string;
  asset_ids : list string;
  description : option string;
  schedule : option datetime;
  media_urls : list string
}.
End JobRequest.

Module Job.
Record t := mk {
  customer_id : option string;
  service_type : service_type_t;
  status : job_status_t;
  site_id : string;
  asset_ids : list string;
  description : option string;
  scheduled_for : option datetime;
  assigned_technician_id : option string;
  timeline : list dict
}.
End Job.

Module Invoice.
Record t := mk {
  job_id : string;
  amount : Q;
  due_date : option datetime;
  status : invoice_status_t;
  line_items : list dict
}.
End Invoice.

Module Feedback.
Record t := mk {
  job_id : string;
  rating_overall : Z;
  rating_engineer : option Z;
  comments : option string;
  request_follow_up : bool
}.
End Feedback.

#[global] Instance Site_model : BaseModel Site.t := λ s,
  [("name", VStr (Site.name s));
   ("address", VOptStr (Site.address s));
   ("city", VOptStr (Site.city s));
   ("state", VOptStr (Site.state s));
   ("pincode", VOptStr (Site.pincode s))].

#[global] Instance Asset_model : BaseModel Asset.t := λ a,
  [("site_id", VStr (Asset.site_id a));
   ("name", VStr (Asset.name a));
   ("type", VStr (Asset.type a));
   ("status", VStr (asset_status_str (Asset.status a)));
   ("serial_number", VOptStr (Asset.serial_number a));
   ("model", VOptStr (Asset.model a))].

#[global] Instance Job_model : BaseModel Job.t := λ j,
  [("customer_id", VOptStr (Job.customer_id j));
   ("service_type", VStr (service_type_str (Job.service_type j)));
   ("status", VStr (job_status_str (Job.status j)));
   ("site_id", VStr (Job.site_id j));
   ("asset_ids", VStrList (Job.asset_ids j));
   ("description", VOptStr (Job.description j));
   ("scheduled_for", VOptDatetime (Job.scheduled_for j));
   ("assigned_technician_id", VOptStr (Job.assigned_technician_id j));
   ("timeline", VDictList (Job.timeline j))].

#[global] Instance Invoice_model : BaseModel Invoice.t := λ i,
  [("job_id", VStr (Invoice.job_id i));
   ("amount", VFloat (Invoice.amount i));
   ("due_date", VOptDatetime (Invoice.due_date i));
   ("status", VStr (invoice_status_str (Invoice.status i)));
   ("line_items", VDictList (Invoice.line_items i))].

#[global] Instance Feedback_model : BaseModel Feedback.t := λ f,
  [("job_id", VStr (Feedback.job_id f));
   ("rating_overall", VInt (Feedback.rating_overall f));
   ("rating_engineer", VOptInt (Feedback.rating_engineer f));
   ("comments", VOptStr (Feedback.comments f));
   ("request_follow_up", VBool (Feedback.request_follow_up f))].

(** Validation of a request body against a model.  The body has to be a
    JSON object; each field is looked up and checked as [schemas.py]
    declares it.  Keys the model does not declare are ignored. *)
Definition model {A} (fields : dict → validated A) (body : value) : validated A :=
  match body with
  | VDict d => fields d
  | _ => fail model_type
  end.

Definition validate_Site : value → validated Site.t :=
  model (λ d,
    inr Site.mk
      <*> required "name" str_ d
      <*> optional "address" None (Optional str_) d
      <*> optional "city" None (Optional str_) d
      <*> optional "state" None (Optional str_) d
      <*> optional "pincode" None (Optional str_) d).

Definition validate_Asset : value → validated Asset.t :=
  model (λ d,
    inr Asset.mk
      <*> required "site_id" str_ d
      <*> required "name" str_ d
      <*> required "type" str_ d
      <*> optional "status" active (Literal asset_statuses) d
      <*> optional "serial_number" None (Optional str_) d
      <*> optional "model" None (Optional str_) d).

Definition validate_Feedback : value → validated Feedback.t :=
  model (λ d,
    inr Feedback.mk
      <*> required "job_id" str_ d
      <*> required "rating_overall" (ge_le 1 5) d
      <*> optional "rating_engineer" None (Optional (ge_le 1 5)) d
      <*> optional "comments" None (Optional str_) d
      <*> optional "request_follow_up" false bool_ d).

Section Datetime_fields.
(** How the validation library reads a [datetime] out of a JSON value
    (ISO 8601 text in several spellings, Unix time stamps) is left open:
    [None] stands for a value it does not accept. *)
Variable parse_datetime : value → option datetime.

Definition datetime_ (v : value) : validated datetime :=
  match parse_datetime v with
  | Some t => inr t
  | None => fail datetime_type
  end.

Definition validate_JobRequest : value → validated JobRequest.t :=
  model (λ d,
    inr JobRequest.mk
      <*> required "service_type" (Literal service_types) d
      <*> required "site_id" str_ d
      <*> optional "asset_ids" [] (List_ str_) d
      <*> optional "description" None (Optional str_) d
      <*> optional "schedule" None (Optional datetime_) d
      <*> optional "media_urls" [] (List_ str_) d).

Definition validate_Invoice : value → validated Invoice.t :=
  model (λ d,
    inr Invoice.mk
      <*> required "job_id" str_ d
      <*> required "amount" float_ d
      <*> optional "due_date" None (Optional datetime_) d
      <*> optional "status" unpaid (Literal invoice_statuses) d
      <*> optional "line_items" [] (List_ dict_) d).
End Datetime_fields.

(** ** The store and the request monad *)

(** A MongoDB database as the service sees it: its name, its collections
    in insertion order, the counter its identifiers are drawn from, and
    [db_fault], the error every driver call raises while the server cannot
    be reached ([None] when it can). *)
Record database := mk_database {
  db_name : string;
  db_fault : option string;
  colls : gmap string (list dict);
  next_id : N
}.

(** The module-level handle [db]: [None] when no database is configured. *)
Definition store : Type := option database.

Inductive exn :=
| HTTPException (status_code : Z) (detail : string)
| InvalidId (oid : string)
| StoreUnavailable
| DriverError (msg : string).

(** A computation that reads and updates the store and may raise. *)
Definition App (A : Type) : Type := store → (exn + A) * store.

#[global] Instance App_ret : MRet App := λ A a st, (inr a, st).

#[global] Instance App_bind : MBind App := λ A B f m st,
  match m st with
  | (inl e, st') => (inl e, st')
  | (inr a, st') => f a st'
  end.

Definition raise {A} (e : exn) : App A := λ st, (inl e, st).

Definition get_db : App store := λ st, (inr st, st).

Definition put_db (d : database) : App unit := λ _, (inr tt, Some d).

Definition lift {A} (r : exn + A) : App A := λ st, (r, st).

(** [db[name]], the documents of a collection. *)
Definition collection (d : database) (name : string) : list dict :=
  default [] (colls d !! name).

(** An equality filter: every listed field is present with that value. *)
Definition matches (filt : dict) (doc : dict) : bool :=
  forallb (λ kv, match dict_get doc kv.1 with
                 | Some w => value_eqb w kv.2
                 | None => false
                 end) filt.

(** Every call of the driver fails while the server is unreachable. *)
Definition driver {A} (d : database) (a : A) : exn + A :=
  match db_fault d with
  | Some m => inl (DriverError m)
  | None => inr a
  end.

(** [Collection.find_one] *)
Definition find_one (d : database) (name : string) (filt : dict) : exn + option dict :=
  driver d (head (List.filter (matches filt) (collection d name))).

(** [Database.list_collection_names] *)
Definition list_collection_names (d : database) : exn + list string :=
  driver d (elements (dom (colls d))).

Fixpoint be_bytes (w : nat) (n : N) : list byte :=
  match w with
  | O => []
  | S w' => (be_bytes w' (n / 256) ++ [default Byte.x00 (Byte.of_N (n mod 256))])%list
  end.

(** The identifier the store generates for its [n]-th insert. *)
Definition fresh_oid (n : N) : ObjectId_t := be_bytes 12 n.

Definition apply_limit {A} (limit : option Z) (l : list A) : list A :=
  match limit with
  | None => l
  | Some n => take (Z.to_nat n) l
  end.

(** Modelled from the spec: [database.py] ([db], [create_document],
    [get_documents]) is not among the sources.  Insert takes a validated
    entity, serializes it, writes it to the named collection and returns the
    generated identifier as a string; when the store is not configured or
    cannot be reached the operation signals a server-side error and writes
    nothing. *)
Definition create_document {A} `{BaseModel A} (collection_name : string) (data : A)
  : App string :=
  db ← get_db;
  match db with
  | None => raise StoreUnavailable
  | Some d =>
      _ ← lift (driver d tt);
      let oid := fresh_oid (next_id d) in
      let doc := ("_id", VObjectId oid) :: model_dump data in
      _ ← put_db (mk_database (db_name d) (db_fault d)
                   (<[collection_name := (collection d collection_name ++ [doc])%list]> (colls d))
                   (N.succ (next_id d)));
      mret (ObjectId_str oid)
  end.

(** Modelled from the spec: find takes a collection name, an equality
    filter (the empty mapping filters nothing) and a result-count limit, and
    returns the matching records in storage order; it fails like insert
    when the store is not configured or cannot be reached. *)
Definition get_documents (collection_name : string) (filter_dict : dict)
    (limit : option Z) : App (list dict) :=
  db ← get_db;
  match db with
  | None => raise StoreUnavailable
  | Some d =>
      _ ← lift (driver d tt);
      mret (apply_limit limit (List.filter (matches filter_dict) (collection d collection_name)))
  end.

(** ** main.py *)

Definition not_configured : exn := HTTPException 500 "Database not configured".

(** [_collection] *)
Definition _collection (name : string) : App (list dict) :=
  db ← get_db;
  match db with
  | None => raise not_configured
  | Some d => mret (collection d name)
  end.

(** [GET /] *)
Definition read_root : App value :=
  mret (VDict [("message", VStr "Hello from Cueron Backend!")]).

(** [GET /health]; [now] is [datetime.now(timezone.utc)]. *)
Definition health (now : datetime) : App value :=
  mret (VDict [("status", VStr "ok"); ("time", VStr (isoformat now))]).

(** [POST /echo] *)
Definition echo (now : datetime) (payload : dict) : App value :=
  mret (VDict [("received", VDict payload); ("time", VStr (isoformat now))]).

(** [GET /test]; [DATABASE_URL] is the value of that environment variable. *)
Definition test_database (DATABASE_URL : option string) : App value :=
  db ← get_db;
  let response : dict :=
    [("backend", VStr "✅ Running");
     ("database", VStr "❌ Not Available");
     ("database_url", VStr "❌ Not Set");
     ("database_name", VStr "❌ Not Set");
     ("connection_status", VStr "Not Connected");
     ("collections", VList [])] in
  mret (VDict
    match db with
    | Some d =>
        let response := dict_set response "database" (VStr "✅ Available") in
        let response :=
          dict_set response "database_url"
            (VStr (if opt_str_truthy DATABASE_URL then "✅ Set" else "❌ Not Set")) in
        let response := dict_set response "database_name" (VStr (db_name d)) in
        match list_collection_names d with
        | inr names =>
            let response := dict_set response "collections" (VStrList names) in
            let response := dict_set response "connection_status" (VStr "Connected") in
            dict_set response "database" (VStr "✅ Connected & Working")
        | inl e =>
            let msg := match e with
                       | DriverError m => m
                       | HTTPException _ m => m
                       | InvalidId m => m
                       | StoreUnavailable => ""
                       end in
            dict_set response "database"
              (VStr ("⚠️ Connected but Error: " +:+ String.substring 0 80 msg))
        end
    | None => dict_set response "database" (VStr "❌ Not Initialized")
    end).

(** [POST /sites] *)
Definition create_site (site : Site.t) : App value :=
  inserted_id ← create_document "site" site;
  mret (VDict [("_id", VStr inserted_id)]).

(** [POST /assets] *)
Definition create_asset (asset : Asset.t) : App value :=
  db ← get_db;
  match db with
  | None => raise not_configured
  | Some d =>
      site ← (if str_truthy (Asset.site_id asset)
              then match ObjectId (Asset.site_id asset) with
                   | Some oid => lift (find_one d "site" [("_id", VObjectId oid)])
                   | None => raise (InvalidId (Asset.site_id asset))
                   end
              else mret None);
      inserted_id ← create_document "asset" asset;
      mret (VDict [("_id", VStr inserted_id)])
  end.

(** The [Job] that [create_job] builds from a request. *)
Definition new_job (now : datetime) (req : JobRequest.t) : Job.t :=
  {| Job.customer_id := None;
     Job.service_type := JobRequest.service_type req;
     Job.status := New;
     Job.site_id := JobRequest.site_id req;
     Job.asset_ids := JobRequest.asset_ids req;
     Job.description := JobRequest.description req;
     Job.scheduled_for := JobRequest.schedule req;
     Job.assigned_technician_id := None;
     Job.timeline := [[("status", VStr "New"); ("at", VStr (isoformat now))]] |}.

(** [POST /jobs] *)
Definition create_job (now : datetime) (req : JobRequest.t) : App value :=
  let job := new_job now req in
  inserted_id ← create_document "job" job;
  mret (VDict [("job_id", VStr inserted_id); ("status", VStr "New")]).

(** [POST /invoices] *)
Definition create_invoice (invoice : Invoice.t) : App value :=
  inserted_id ← create_document "invoice" invoice;
  mret (VDict [("_id", VStr inserted_id)]).

(** [POST /feedback] *)
Definition submit_feedback (feedback : Feedback.t) : App value :=
  inserted_id ← create_document "feedback" feedback;
  mret (VDict [("_id", VStr inserted_id)]).

(** [GET /schema] *)
Definition schema_info : App value :=
  mret (VDict [("collections",
                VStrList ["site"; "asset"; "job"; "invoice"; "feedback"])]).

(** The filter of the list handlers: [{field: x} if x else {}]. *)
Definition filter_by (field : string) (x : option string) : dict :=
  match x with
  | Some s => if str_truthy s then [(field, VStr s)] else []
  | None => []
  end.

Section Listing.
(** [repr] of the values whose text is not modelled: floats, lists and
    dictionaries. *)
Variable repr : value → string.

(** [str(v)] *)
Definition str (v : value) : string :=
  match v with
  | VNone => "None"
  | VBool true => "True"
  | VBool false => "False"
  | VInt z => pretty z
  | VStr s => s
  | VObjectId o => ObjectId_str o
  | VDatetime t => isoformat_sep " " t
  | VFloat _ | VList _ | VDict _ => repr v
  end.

(** The body of the loop [for d in docs: d["_id"] = str(d.get("_id"))]. *)
Definition stringify_id (d : dict) : dict :=
  dict_set d "_id" (VStr (str (default VNone (dict_get d "_id")))).

Definition serialize (docs : list dict) : value :=
  VList (VDict <$> (stringify_id <$> docs)).

(** [GET /sites] *)
Definition list_sites (limit : option Z) : App value :=
  docs ← get_documents "site" [] limit;
  mret (serialize docs).

(** [GET /assets] *)
Definition list_assets (limit : option Z) (site_id : option string) : App value :=
  let filt := filter_by "site_id" site_id in
  docs ← get_documents "asset" filt limit;
  mret (serialize docs).

(** [GET /jobs] *)
Definition list_jobs (limit : option Z) (status : option string) : App value :=
  let filt := filter_by "status" status in
  docs ← get_documents "job" filt limit;
  mret (serialize docs).

(** [GET /invoices] *)
Definition list_invoices (limit : option Z) (status : option string) : App value :=
  let filt := filter_by "status" status in
  docs ← get_documents "invoice" filt limit;
  mret (serialize docs).
End Listing.

(** ** The application *)

Inductive response := Response (status_code : Z) (body : value).

Definition status_of (r : response) : Z :=
  match r with Response c _ => c end.

Definition body_of (r : response) : value :=
  match r with Response _ b => b end.

Definition verror_type_str (e : verror_type) : string :=
  match e with
  | missing => "missing" | model_type => "model_type"
  | string_type => "string_type" | int_type => "int_type"
  | float_type => "float_type" | bool_type => "bool_type"
  | list_type => "list_type" | dict_type => "dict_type"
  | datetime_type => "datetime_type"
  | literal_error => "literal_error"
  | greater_than_equal => "greater_than_equal"
  | less_than_equal => "less_than_equal"
  end.

(** The reply to a body that does not validate: 422 with the list of
    errors. *)
Definition unprocessable (es : list verror) : response :=
  Response 422
    (VDict [("detail",
             VDictList ((λ e, [("loc", VStrList ("body" :: loc e));
                               ("type", VStr (verror_type_str (err e)))]) <$> es))]).

(** What the framework sends for the outcome of a handler: the value it
    returned, the status and detail of an [HTTPException], and a plain 500
    for any other exception. *)
Definition respond (r : exn + value) : response :=
  match r with
  | inr v => Response 200 v
  | inl (HTTPException c d) => Response c (VDict [("detail", VStr d)])
  | inl _ => Response 500 (VStr "Internal Server Error")
  end.

Definition run (h : App value) (st : store) : response * store :=
  let (r, st') := h st in (respond r, st').

(** A handler with a model-typed body runs only when the body validates. *)
Definition with_body {A} (validate : value → validated A) (h : A → App value)
    (body : value) (st : store) : response * store :=
  match validate body with
  | inl es => (unprocessable es, st)
  | inr a => run (h a) st
  end.

(** The requests the service routes.  An optional query parameter is [None]
    when the request does not carry it. *)
Inductive request :=
| GET_root
| GET_health
| POST_echo (body : value)
| GET_test
| POST_sites (body : value)
| GET_sites (limit : option Z)
| POST_assets (body : value)
| GET_assets (limit : option Z) (site_id : option string)
| POST_jobs (body : value)
| GET_jobs (limit : option Z) (status : option string)
| POST_invoices (body : value)
| GET_invoices (limit : option Z) (status : option string)
| POST_feedback (body : value)
| GET_schema.

(** What a request reads besides the store: the clock and the process
    environment. *)
Record environ := mk_environ {
  now : datetime;
  DATABASE_URL : option string
}.

(** The defaults of the [limit] parameters. *)
Definition list_sites_limit : Z := 100.
Definition list_assets_limit : Z := 200.
Definition list_jobs_limit : Z := 200.
Definition list_invoices_limit : Z := 200.

Definition or_default (dflt : Z) (limit : option Z) : option Z :=
  match limit with
  | None => Some dflt
  | Some n => Some n
  end.

Section Application.
Variable parse_datetime : value → option datetime.
Variable repr : value → string.

Definition app (env : environ) (rq : request) : store → response * store :=
  match rq with
  | GET_root => run read_root
  | GET_health => run (health (now env))
  | POST_echo body => with_body dict_ (echo (now env)) body
  | GET_test => run (test_database (DATABASE_URL env))
  | POST_sites body => with_body validate_Site create_site body
  | GET_sites limit => run (list_sites repr (or_default list_sites_limit limit))
  | POST_assets body => with_body validate_Asset create_asset body
  | GET_assets limit site_id =>
      run (list_assets repr (or_default list_assets_limit limit) site_id)
  | POST_jobs body =>
      with_body (validate_JobRequest parse_datetime) (create_job (now env)) body
  | GET_jobs limit status =>
      run (list_jobs repr (or_default list_jobs_limit limit) status)
  | POST_invoices body =>
      with_body (validate_Invoice parse_datetime) create_invoice body
  | GET_invoices limit status =>
      run (list_invoices repr (or_default list_invoices_limit limit) status)
  | POST_feedback body => with_body validate_Feedback submit_feedback body
  | GET_schema => run schema_info
  end.
End Application.

(** The documents of a response body that is a list of objects. *)
Definition records (v : value) : list dict :=
  match v with
  | VList l => omap (λ x, match x with VDict d => Some d | _ => None end) l
  | _ => []
  end.

(** A store that is configured and reachable. *)
Definition available (st : store) : Prop :=
  match st with
  | Some d => db_fault d = None
  | None => False
  end.

(** The store after [data] has been inserted into the collection [name]. *)
Definition inserted {A} `{BaseModel A} (d : database) (name : string) (data : A)
  : database :=
  mk_database (db_name d) (db_fault d)
    (<[name := (collection d name ++
                [("_id", VObjectId (fresh_oid (next_id d))) :: model_dump data])%list]>
       (colls d))
    (N.succ (next_id d)).


(** The single timeline entry of a job created at [t]. *)
Definition first_entry (t : datetime) : dict :=
  [("status", VStr "New"); ("at", VStr (isoformat t))].

(** ** Sample data *)

Module Sample.
(** A validation library that reads no [datetime] at all, and a [repr]
    that prints nothing: enough to run requests that carry neither. *)
Definition parse_datetime : value → option datetime := λ _, None.
Definition repr : value → string := λ _, "".

Definition noon : datetime := mk_datetime 2024 3 9 12 0 0 0 utc.
Definition env : environ := mk_environ noon None.

Definition empty_db : database := mk_database "cueron" None ∅ 0.

Definition repair_request : value :=
  VDict [("service_type", VStr "Repair"); ("site_id", VStr "s1");
         ("media_urls", VList [VStr "http://x/a.jpg"])].

Definition repair : JobRequest.t :=
  JobRequest.mk Repair "s1" [] None None ["http://x/a.jpg"].
End Sample.

(** ** Request bodies *)

(** The value a JSON body gives to a field, if it is an object that has it. *)
Definition field (body : value) (k : string) : option value :=
  match body with
  | VDict d => dict_get d k
  | _ => None
  end.

Definition lacks (body : value) (k : string) : bool :=
  match field body k with
  | None => true
  | Some _ => false
  end.

(** The field is present and its value is not one of the strings [names]. *)
Definition outside (names : list string) (body : value) (k : string) : bool :=
  match field body k with
  | Some (VStr s) => negb (bool_decide (s ∈ names))
  | Some _ => true
  | None => false
  end.

(** A body for [POST /assets], [/jobs] or [/invoices] that lacks a required
    field of the model or gives an enumerated field a value outside its
    set. *)
Definition invalid_payload (rq : request) : bool :=
  match rq with
  | POST_assets b =>
      lacks b "site_id" || lacks b "name" || lacks b "type"
      || outside ["active"; "inactive"; "maintenance"] b "status"
  | POST_jobs b =>
      lacks b "service_type" || lacks b "site_id"
      || outside ["AMC"; "Repair"; "Installation"; "Emergency"] b "service_type"
  | POST_invoices b =>
      lacks b "job_id" || lacks b "amount"
      || outside ["unpaid"; "paid"; "overdue"] b "status"
  | _ => false
  end.

(** An integer rating below 1 or above 5. *)
Definition out_of_range (v : option value) : bool :=
  match v with
  | Some (VInt z) => (z <? 1) || (5 <? z)
  | _ => false
  end.

Definition rating_out_of_range (body : value) : bool :=
  out_of_range (field body "rating_overall")
  || out_of_range (field body "rating_engineer").

Definition set_field (body : value) (k : string) (v : value) : value :=
  match body with
  | VDict d => VDict (dict_set d k v)
  | _ => body
  end.

Definition with_rating (f : Feedback.t) (z : Z) : Feedback.t :=
  {| Feedback.job_id := Feedback.job_id f;
     Feedback.rating_overall := z;
     Feedback.rating_engineer := Feedback.rating_engineer f;
     Feedback.comments := Feedback.comments f;
     Feedback.request_follow_up := Feedback.request_follow_up f |}.

Module Sample_bodies.
Definition compressor : value :=
  VDict [("site_id", VStr "s1"); ("name", VStr "Compressor"); ("type", VStr "HVAC")].

Definition compressor_asset : Asset.t :=
  Asset.mk "s1" "Compressor" "HVAC" active None None.

Definition broken_asset : value :=
  VDict [("site_id", VStr "s1"); ("name", VStr "Compressor"); ("type", VStr "HVAC");
         ("status", VStr "broken")].

Definition praise : value :=
  VDict [("job_id", VStr "j1"); ("rating_overall", VInt 4)].

Definition praise_feedback : Feedback.t := Feedback.mk "j1" 4 None None false.

Definition zero_stars : value :=
  VDict [("job_id", VStr "j1"); ("rating_overall", VInt 0)].
End Sample_bodies.

(** ** The models no route uses, and [Job] as a validator *)

Inductive role_t := admin | manager | viewer | technician | customer.

Definition roles : list (string * role_t) :=
  [("admin", admin); ("manager", manager); ("viewer", viewer);
   ("technician", technician); ("customer", customer)].

Definition role_str (r : role_t) : string :=
  match r with
  | admin => "admin" | manager => "manager" | viewer => "viewer"
  | technician => "technician" | customer => "customer"
  end.

Module User.
Record t := mk {
  org_name : option string;
  name : option string;
  email : option string;
  phone : option string;
  role : role_t
}.
End User.

Module AnalyticsSnapshot.
Record t := mk {
  month : string;
  jobs_count : Z;
  downtime_hours : Q;
  engineer_performance : list dict
}.
End AnalyticsSnapshot.

Module Message.
Record t := mk { message : string }.
End Message.

#[global] Instance User_model : BaseModel User.t := λ u,
  [("org_name", VOptStr (User.org_name u));
   ("name", VOptStr (User.name u));
   ("email", VOptStr (User.email u));
   ("phone", VOptStr (User.phone u));
   ("role", VStr (role_str (User.role u)))].

#[global] Instance AnalyticsSnapshot_model : BaseModel AnalyticsSnapshot.t := λ a,
  [("month", VStr (AnalyticsSnapshot.month a));
   ("jobs_count", VInt (AnalyticsSnapshot.jobs_count a));
   ("downtime_hours", VFloat (AnalyticsSnapshot.downtime_hours a));
   ("engineer_performance", VDictList (AnalyticsSnapshot.engineer_performance a))].

#[global] Instance Message_model : BaseModel Message.t := λ m,
  [("message", VStr (Message.message m))].

Definition validate_User : value → validated User.t :=
  model (λ d,
    inr User.mk
      <*> optional "org_name" None (Optional str_) d
      <*> optional "name" None (Optional str_) d
      <*> optional "email" None (Optional str_) d
      <*> optional "phone" None (Optional str_) d
      <*> optional "role" customer (Literal roles) d).

Definition validate_AnalyticsSnapshot : value → validated AnalyticsSnapshot.t :=
  model (λ d,
    inr AnalyticsSnapshot.mk
      <*> required "month" str_ d
      <*> required "jobs_count" int_ d
      <*> required "downtime_hours" float_ d
      <*> optional "engineer_performance" [] (List_ dict_) d).

Definition validate_Message : value → validated Message.t :=
  model (λ d, inr Message.mk <*> required "message" str_ d).

Section Job_validation.
Variable parse_datetime : value → option datetime.

(** The [Job] constructor: the fields of [Job] as [schemas.py] declares
    them, applied to the keyword arguments of the call. *)
Definition validate_Job : value → validated Job.t :=
  model (λ d,
    inr Job.mk
      <*> optional "customer_id" None (Optional str_) d
      <*> required "service_type" (Literal service_types) d
      <*> optional "status" New (Literal job_statuses) d
      <*> required "site_id" str_ d
      <*> optional "asset_ids" [] (List_ str_) d
      <*> optional "description" None (Optional str_) d
      <*> optional "scheduled_for" None (Optional (datetime_ parse_datetime)) d
      <*> optional "assigned_technician_id" None (Optional str_) d
      <*> optional "timeline" [] (List_ dict_) d).
End Job_validation.

(** The keyword arguments of the [Job(...)] call in [create_job]. *)
Definition job_kwargs (t : datetime) (req : JobRequest.t) : dict :=
  [("customer_id", VNone);
   ("service_type", VStr (service_type_str (JobRequest.service_type req)));
   ("site_id", VStr (JobRequest.site_id req));
   ("asset_ids", VStrList (JobRequest.asset_ids req));
   ("description", VOptStr (JobRequest.description req));
   ("scheduled_for", VOptDatetime (JobRequest.schedule req));
   ("assigned_technician_id", VNone);
   ("timeline", VList [VDict [("status", VStr "New"); ("at", VStr (isoformat t))]])].

(** The names of the fields a model declares. *)
Definition Site_fields : list string :=
  ["name"; "address"; "city"; "state"; "pincode"].
Definition Asset_fields : list string :=
  ["site_id"; "name"; "type"; "status"; "serial_number"; "model"].
Definition JobRequest_fields : list string :=
  ["service_type"; "site_id"; "asset_ids"; "description"; "schedule"; "media_urls"].
Definition Feedback_fields : list string :=
  ["job_id"; "rating_overall"; "rating_engineer"; "comments"; "request_follow_up"].

(** A rating as [Field(ge=1, le=5)] admits it. *)
Definition rating_ok (z : Z) : Prop := 1 ≤ z ≤ 5.

Definition opt_rating_ok (z : option Z) : Prop :=
  match z with
  | Some z => rating_ok z
  | None => True
  end.

Module Sample_models.
(** A validation library that takes a [datetime] object as it is and
    nothing else. *)
Definition parse_datetime : value → option datetime :=
  λ v, match v with VDatetime t => Some t | _ => None end.

Definition site : Site.t := Site.mk "Plant 1" (Some "12 Mill Road") None None None.

Definition feedback : Feedback.t := Feedback.mk "j1" 5 (Some 1) None true.

Definition job : Job.t :=
  Job.mk None AMC Travelling "s1" ["a1"; "a2"] (Some "yearly") (Some Sample.noon)
    (Some "t7") [first_entry Sample.noon].

Definition invoice : Invoice.t :=
  Invoice.mk "j1" (QArith_base.Qmake 1250 1) None paid [[("item", VStr "gas")]].
End Sample_models.

(** ** Kinds of request *)

(** The informational endpoints. *)
Definition diagnostic (rq : request) : bool :=
  match rq with
  | GET_root | GET_health | POST_echo _ | GET_test | GET_schema => true
  | _ => false
  end.

(** The list endpoints. *)
Definition listing (rq : request) : bool :=
  match rq with
  | GET_sites _ | GET_assets _ _ | GET_jobs _ _ | GET_invoices _ _ => true
  | _ => false
  end.

(** A filter parameter as the handlers read it: the empty string counts
    as no parameter. *)
Definition effective (x : option string) : option string :=
  match x with
  | Some s => if str_truthy s then Some s else None
  | None => None
  end.

(** The keys of a dictionary, in order. *)
Definition keys (d : dict) : list string := d.*1.

(** The reply of a handler that inserts [data] and returns its identifier. *)
Definition insert_and_reply {A} `{BaseModel A} (name : string) (data : A) : App value :=
  inserted_id ← create_document name data;
  mret (VDict [("_id", VStr inserted_id)]).

Module Sample_store.
(** A store that holds one site. *)
Definition one_site : database :=
  inserted Sample.empty_db "site" Sample_models.site.

Definition site_id_text : string := ObjectId_str (fresh_oid 0).

Definition pump : Asset.t :=
  Asset.mk site_id_text "Pump" "Hydraulics" maintenance None None.

Definition pump_body : value := VDict (model_dump pump).
End Sample_store.

(** ** Errors of a validation *)

Definition errors {A} (r : validated A) : list verror :=
  match r with
  | inl es => es
  | inr _ => []
  end.

(** The body a request carries. *)
Definition body_of_request (rq : request) : option value :=
  match rq with
  | POST_echo b | POST_sites b | POST_assets b | POST_jobs b | POST_invoices b
  | POST_feedback b => Some b
  | _ => None
  end.

(** The fields without default of the model a request is validated
    against. *)
Definition required_fields (rq : request) : list string :=
  match rq with
  | POST_sites _ => ["name"]
  | POST_assets _ => ["site_id"; "name"; "type"]
  | POST_jobs _ => ["service_type"; "site_id"]
  | POST_invoices _ => ["job_id"; "amount"]
  | POST_feedback _ => ["job_id"; "rating_overall"]
  | _ => []
  end.

(** ** Reading a time stamp *)

Definition digit_value (c : ascii) : option N :=
  let n := N_of_ascii c in
  (if (48 <=? n) && (n <=? 57) then Some (n - 48) else None)%N.

(** Reads exactly [w] decimal digits off the front of [s]. *)
Fixpoint read_digits (w : nat) (acc : N) (s : string) : option (N * string) :=
  match w with
  | O => Some (acc, s)
  | S w' =>
      match s with
      | String c s' =>
          match digit_value c with
          | Some v => read_digits w' (10 * acc + v) s'
          | None => None
          end
      | "" => None
      end
  end.

Definition expect (c : ascii) (s : string) : option string :=
  match s with
  | String c' s' => if bool_decide (c' = c) then Some s' else None
  | "" => None
  end.

(** [.ffffff], or nothing. *)
Definition read_fraction (s : string) : option (N * string) :=
  match s with
  | String "." s' => read_digits 6 0 s'
  | _ => Some (0%N, s)
  end.

(** [+HH:MM], [-HH:MM], with [:SS] after it or not; or nothing, for a
    naive time. *)
Definition read_offset (s : string) : option (option Z) :=
  match s with
  | "" => Some None
  | String c s1 =>
      sign ← (if bool_decide (c = "+"%char) then Some 1
              else if bool_decide (c = "-"%char) then Some (-1) else None);
      '(hh, s2) ← read_digits 2 0 s1;
      s3 ← expect ":" s2;
      '(mm, s4) ← read_digits 2 0 s3;
      match s4 with
      | "" => Some (Some (sign * Z.of_N (hh * 3600 + mm * 60)))
      | _ =>
          s5 ← expect ":" s4;
          '(ss, s6) ← read_digits 2 0 s5;
          match s6 with
          | "" => Some (Some (sign * Z.of_N (hh * 3600 + mm * 60 + ss)))
          | _ => None
          end
      end
  end.

(** [datetime.fromisoformat] on the format that [isoformat] writes:
    [YYYY-MM-DDTHH:MM:SS], then the fraction and the offset if any; the
    fields have to be in range. *)
Definition fromisoformat (s : string) : option datetime :=
  '(y, s) ← read_digits 4 0 s;
  s ← expect "-" s;
  '(mo, s) ← read_digits 2 0 s;
  s ← expect "-" s;
  '(d, s) ← read_digits 2 0 s;
  s ← expect "T" s;
  '(h, s) ← read_digits 2 0 s;
  s ← expect ":" s;
  '(mi, s) ← read_digits 2 0 s;
  s ← expect ":" s;
  '(sec, s) ← read_digits 2 0 s;
  '(us, s) ← read_fraction s;
  tz ← read_offset s;
  let t := mk_datetime y mo d h mi sec us tz in
  if datetime_ok t then Some t else None.

Module Sample_times.
Definition late : datetime := mk_datetime 2024 12 31 23 59 59 999999 utc.
Definition kolkata : datetime := mk_datetime 2025 2 28 6 30 0 0 (Some 19800).
End Sample_times.

(** The text of the offset of a time. *)
Definition offset_text (tz : option Z) : string :=
  match tz with
  | None => ""
  | Some o => format_offset o
  end.

(** The time that the field [k] of a reply or record holds as text. *)
Definition time_of (v : value) (k : string) : option datetime :=
  match field v k with
  | Some (VStr s) => fromisoformat s
  | _ => None
  end.
(** * Properties *)

(** ** Dictionaries *)

Lemma dict_get_set_eq (d : dict) (k : string) (v : value) :
  dict_get (dict_set d k v) k = Some v.
Proof.
  induction d as [|[k' v'] d IH]; simpl.
  - by rewrite bool_decide_eq_true_2.
  - destruct (bool_decide (k' = k)) eqn:E; simpl; by rewrite E.
Qed.

Lemma dict_get_set_ne (d : dict) (k k' : string) (v : value) :
  k ≠ k' → dict_get (dict_set d k v) k' = dict_get d k'.
Proof.
  intros Hne. induction d as [|[k0 v0] d IH]; simpl.
  - by rewrite bool_decide_eq_false_2.
  - destruct (bool_decide (k0 = k)) eqn:E; simpl.
    + apply bool_decide_eq_true in E as ->.
      by rewrite bool_decide_eq_false_2.
    + by rewrite IH.
Qed.

Lemma value_eqb_str (v : value) (s : string) :
  value_eqb v (VStr s) = true → v = VStr s.
Proof.
  destruct v; simpl; try discriminate.
  intros ?%bool_decide_eq_true. by subst.
Qed.

Lemma matches_nil (l : list dict) : List.filter (matches []) l = l.
Proof. induction l as [|d l IH]; simpl; [done | by rewrite IH]. Qed.

Lemma matches_field (k s : string) (doc : dict) :
  matches [(k, VStr s)] doc = true → dict_get doc k = Some (VStr s).
Proof.
  unfold matches; simpl. destruct (dict_get doc k) as [w|]; [|done].
  rewrite andb_true_r. by intros ->%value_eqb_str.
Qed.

(** ** The gateway *)

Lemma create_document_available {A} `{BaseModel A} name (data : A) d :
  db_fault d = None →
  create_document name data (Some d)
  = (inr (ObjectId_str (fresh_oid (next_id d))), Some (inserted d name data)).
Proof.
  intros Hf.
  unfold create_document, inserted, mbind, App_bind, get_db, lift, driver.
  by rewrite Hf.
Qed.

Lemma create_document_unconfigured {A} `{BaseModel A} name (data : A) :
  create_document name data None = (inl StoreUnavailable, None).
Proof. reflexivity. Qed.

Lemma create_document_unreachable {A} `{BaseModel A} name (data : A) d m :
  db_fault d = Some m →
  create_document name data (Some d) = (inl (DriverError m), Some d).
Proof.
  intros Hf. unfold create_document, mbind, App_bind, get_db, lift, driver.
  by rewrite Hf.
Qed.

Lemma get_documents_available name filt limit d :
  db_fault d = None →
  get_documents name filt limit (Some d)
  = (inr (apply_limit limit (List.filter (matches filt) (collection d name))), Some d).
Proof.
  intros Hf. unfold get_documents, mbind, App_bind, get_db, lift, driver.
  by rewrite Hf.
Qed.

Lemma get_documents_unconfigured name filt limit :
  get_documents name filt limit None = (inl StoreUnavailable, None).
Proof. reflexivity. Qed.

Lemma collection_inserted {A} `{BaseModel A} d name (data : A) :
  collection (inserted d name data) name
  = (collection d name ++
     [("_id", VObjectId (fresh_oid (next_id d))) :: model_dump data])%list.
Proof. unfold collection at 1, inserted; simpl. by rewrite lookup_insert_eq. Qed.

Lemma collection_inserted_ne {A} `{BaseModel A} d name name' (data : A) :
  name ≠ name' →
  collection (inserted d name data) name' = collection d name'.
Proof.
  intros Hne. unfold collection, inserted; simpl. by rewrite lookup_insert_ne.
Qed.

Lemma hexlify_length (bs : list byte) :
  String.length (hexlify bs) = (2 * length bs)%nat.
Proof. induction bs as [|b bs IH]; simpl; [done | rewrite IH; lia]. Qed.

Lemma be_bytes_length (w : nat) (n : N) : length (be_bytes w n) = w.
Proof.
  revert n. induction w as [|w IH]; intros n; simpl; [done|].
  rewrite length_app, IH. simpl. lia.
Qed.

(** A generated identifier prints as 24 characters. *)
Lemma fresh_oid_str_length (n : N) :
  String.length (ObjectId_str (fresh_oid n)) = 24%nat.
Proof.
  unfold ObjectId_str, fresh_oid. by rewrite hexlify_length, be_bytes_length.
Qed.

Lemma fresh_oid_str_nonempty (n : N) : ObjectId_str (fresh_oid n) ≠ "".
Proof.
  intros E. pose proof (fresh_oid_str_length n) as L. rewrite E in L. discriminate.
Qed.

Lemma run_create_document {A} `{BaseModel A} name (data : A) (k : string → value) d :
  db_fault d = None →
  run (inserted_id ← create_document name data; mret (k inserted_id)) (Some d)
  = (Response 200 (k (ObjectId_str (fresh_oid (next_id d)))),
     Some (inserted d name data)).
Proof.
  intros Hf. unfold run, mbind, App_bind.
  by rewrite create_document_available.
Qed.

(** ** Creating records *)

#[global] Arguments fresh_oid : simpl never.
#[global] Arguments ObjectId_str : simpl never.
#[global] Arguments isoformat : simpl never.
#[global] Arguments inserted : simpl never.
#[global] Arguments collection : simpl never.

Section Creation.
Variable parse_datetime : value → option datetime.
Variable repr : value → string.

(** C1. A valid [JobRequest] body posted to [/jobs] on an available store
    appends one job to the collection: its status is "New", its timeline
    is the single entry ("New", time of creation), and the reply carries
    the generated identifier, which is not empty, and the status "New". *)
Theorem create_job_stores_new_job env body req d :
  validate_JobRequest parse_datetime body = inr req →
  db_fault d = None →
  ∃ oid job d',
    app parse_datetime repr env (POST_jobs body) (Some d)
    = (Response 200 (VDict [("job_id", VStr (ObjectId_str oid));
                            ("status", VStr "New")]),
       Some d')
    ∧ collection d' "job"
      = (collection d "job" ++ [("_id", VObjectId oid) :: model_dump job])%list
    ∧ Job.status job = New
    ∧ Job.timeline job = [first_entry (now env)]
    ∧ dict_get (model_dump job) "status" = Some (VStr "New")
    ∧ dict_get (model_dump job) "timeline"
      = Some (VList [VDict [("status", VStr "New");
                            ("at", VStr (isoformat (now env)))]])
    ∧ ObjectId_str oid ≠ "".
Proof.
  intros Hv Hf.
  exists (fresh_oid (next_id d)), (new_job (now env) req),
         (inserted d "job" (new_job (now env) req)).
  split.
  - simpl. unfold with_body. rewrite Hv. unfold create_job.
    by rewrite (run_create_document "job" _
                  (λ i, VDict [("job_id", VStr i); ("status", VStr "New")])).
  - split; [apply collection_inserted|].
    repeat split; auto using fresh_oid_str_nonempty.
Qed.

(** C9. Whatever the request carries, the job that [create_job] stores has
    no [media_urls] key and has [customer_id] and
    [assigned_technician_id] set to null; the [media_urls] of the request
    have no influence on what is stored or returned. *)
Theorem create_job_drops_media_urls t (req : JobRequest.t) d :
  db_fault d = None →
  ∃ doc d',
    (run (create_job t req) (Some d)).2 = Some d'
    ∧ collection d' "job" = (collection d "job" ++ [doc])%list
    ∧ dict_get doc "media_urls" = None
    ∧ dict_get doc "customer_id" = Some VNone
    ∧ dict_get doc "assigned_technician_id" = Some VNone
    ∧ ∀ urls,
        run (create_job t
               (JobRequest.mk (JobRequest.service_type req)
                  (JobRequest.site_id req) (JobRequest.asset_ids req)
                  (JobRequest.description req) (JobRequest.schedule req) urls))
            (Some d)
        = run (create_job t req) (Some d).
Proof.
  intros Hf.
  exists (("_id", VObjectId (fresh_oid (next_id d))) :: model_dump (new_job t req)),
         (inserted d "job" (new_job t req)).
  unfold create_job.
  rewrite (run_create_document "job" _
             (λ i, VDict [("job_id", VStr i); ("status", VStr "New")])) by done.
  split; [done|]. split; [apply collection_inserted|].
  repeat split; try done.
  intros urls. unfold create_job.
  by rewrite (run_create_document "job" _
                (λ i, VDict [("job_id", VStr i); ("status", VStr "New")])).
Qed.
End Creation.

Lemma create_job_stores_new_job_witness :
  validate_JobRequest Sample.parse_datetime Sample.repair_request = inr Sample.repair
  ∧ db_fault Sample.empty_db = None
  ∧ ∃ oid job d',
      app Sample.parse_datetime Sample.repr Sample.env
        (POST_jobs Sample.repair_request) (Some Sample.empty_db)
      = (Response 200 (VDict [("job_id", VStr (ObjectId_str oid));
                              ("status", VStr "New")]),
         Some d')
      ∧ collection d' "job"
        = (collection Sample.empty_db "job"
           ++ [("_id", VObjectId oid) :: model_dump job])%list
      ∧ Job.status job = New
      ∧ Job.timeline job = [first_entry (now Sample.env)]
      ∧ dict_get (model_dump job) "status" = Some (VStr "New")
      ∧ dict_get (model_dump job) "timeline"
        = Some (VList [VDict [("status", VStr "New");
                              ("at", VStr (isoformat (now Sample.env)))]])
      ∧ ObjectId_str oid ≠ "".
Proof.
  split; [reflexivity|]. split; [reflexivity|].
  apply (create_job_stores_new_job Sample.parse_datetime Sample.repr Sample.env
           Sample.repair_request Sample.repair Sample.empty_db); reflexivity.
Defined.

Lemma create_job_drops_media_urls_witness :
  db_fault Sample.empty_db = None
  ∧ ∃ doc d',
      (run (create_job Sample.noon Sample.repair) (Some Sample.empty_db)).2 = Some d'
      ∧ collection d' "job" = (collection Sample.empty_db "job" ++ [doc])%list
      ∧ dict_get doc "media_urls" = None
      ∧ dict_get doc "customer_id" = Some VNone
      ∧ dict_get doc "assigned_technician_id" = Some VNone
      ∧ ∀ urls,
          run (create_job Sample.noon
                 (JobRequest.mk Repair "s1" [] None None urls))
              (Some Sample.empty_db)
          = run (create_job Sample.noon Sample.repair) (Some Sample.empty_db).
Proof.
  split; [reflexivity|].
  apply (create_job_drops_media_urls Sample.noon Sample.repair Sample.empty_db).
  reflexivity.
Defined.

(** ** Validation *)

Lemma vap_rejected_l {A B} (f : validated (A → B)) (x : validated A) :
  rejected f → rejected (f <*> x).
Proof. destruct f, x; simpl; tauto. Qed.

Lemma vap_rejected_r {A B} (f : validated (A → B)) (x : validated A) :
  rejected x → rejected (f <*> x).
Proof. destruct f, x; simpl; tauto. Qed.

Lemma at_loc_rejected {A} k (r : validated A) : rejected r → rejected (at_loc k r).
Proof. by destruct r. Qed.

Lemma required_missing {A} k (p : value → validated A) d :
  dict_get d k = None → rejected (required k p d).
Proof. unfold required. by intros ->. Qed.

Lemma Literal_outside {A} (choices : list (string * A)) (v : value) :
  (∀ s, v = VStr s → assoc s choices = None) → rejected (Literal choices v).
Proof.
  intros Hv. destruct v; simpl; try done.
  by rewrite (Hv s eq_refl).
Qed.

Lemma outside_spec names body k :
  outside names body k = true →
  ∃ v, field body k = Some v ∧ ∀ s, v = VStr s → s ∉ names.
Proof.
  unfold outside. destruct (field body k) as [v|]; [|done].
  intros Hv. exists v. split; [done|]. intros s ->.
  by apply negb_true_iff, bool_decide_eq_false in Hv.
Qed.

Lemma lacks_spec body k : lacks body k = true → field body k = None.
Proof. unfold lacks. by destruct (field body k). Qed.

Lemma with_body_rejected {A} (validate : value → validated A) h body st :
  rejected (validate body) →
  ∃ detail, with_body validate h body st = (Response 422 detail, st).
Proof.
  unfold with_body. destruct (validate body) as [es|a]; [|done].
  intros _. eexists. reflexivity.
Qed.

Lemma model_not_object {A} (fields : dict → validated A) body :
  (∀ d, body ≠ VDict d) → rejected (model fields body).
Proof. destruct body; simpl; try done. intros Hb. by destruct (Hb d). Qed.

(** A component of the chain of fields is rejected: so is the chain. *)
Ltac reject_by H :=
  first [ apply vap_rejected_r; exact H
        | apply vap_rejected_l; reject_by H ].

Ltac field_cases Hi :=
  repeat match type of Hi with
         | (_ || _) = true => apply orb_true_iff in Hi as [Hi|Hi]
         end.

Lemma status_outside_assets v :
  (∀ s, v = VStr s → s ∉ ["active"; "inactive"; "maintenance"]) →
  rejected (Literal asset_statuses v).
Proof.
  intros Hv. apply Literal_outside. intros s Hs. specialize (Hv s Hs). simpl.
  repeat case_bool_decide; subst; try done; exfalso; apply Hv; set_solver.
Qed.

Lemma status_outside_invoices v :
  (∀ s, v = VStr s → s ∉ ["unpaid"; "paid"; "overdue"]) →
  rejected (Literal invoice_statuses v).
Proof.
  intros Hv. apply Literal_outside. intros s Hs. specialize (Hv s Hs). simpl.
  repeat case_bool_decide; subst; try done; exfalso; apply Hv; set_solver.
Qed.

Lemma service_type_outside v :
  (∀ s, v = VStr s → s ∉ ["AMC"; "Repair"; "Installation"; "Emergency"]) →
  rejected (Literal service_types v).
Proof.
  intros Hv. apply Literal_outside. intros s Hs. specialize (Hv s Hs). simpl.
  repeat case_bool_decide; subst; try done; exfalso; apply Hv; set_solver.
Qed.

Lemma validate_Asset_invalid body :
  invalid_payload (POST_assets body) = true → rejected (validate_Asset body).
Proof.
  intros Hi. unfold validate_Asset, model.
  destruct body as [| | | | | | | |d]; try exact I.
  unfold invalid_payload in Hi. field_cases Hi.
  - apply lacks_spec, (required_missing _ str_) in Hi. reject_by Hi.
  - apply lacks_spec, (required_missing _ str_) in Hi. reject_by Hi.
  - apply lacks_spec, (required_missing _ str_) in Hi. reject_by Hi.
  - apply outside_spec in Hi as (v & Hv & Hout). unfold field in Hv.
    assert (rejected (optional "status" active (Literal asset_statuses) d)) as Hr.
    { unfold optional. rewrite Hv. by apply at_loc_rejected, status_outside_assets. }
    reject_by Hr.
Qed.

Lemma validate_JobRequest_invalid pd body :
  invalid_payload (POST_jobs body) = true → rejected (validate_JobRequest pd body).
Proof.
  intros Hi. unfold validate_JobRequest, model.
  destruct body as [| | | | | | | |d]; try exact I.
  unfold invalid_payload in Hi. field_cases Hi.
  - apply lacks_spec, (required_missing _ (Literal service_types)) in Hi.
    reject_by Hi.
  - apply lacks_spec, (required_missing _ str_) in Hi. reject_by Hi.
  - apply outside_spec in Hi as (v & Hv & Hout). unfold field in Hv.
    assert (rejected (required "service_type" (Literal service_types) d)) as Hr.
    { unfold required. rewrite Hv. by apply at_loc_rejected, service_type_outside. }
    reject_by Hr.
Qed.

Lemma validate_Invoice_invalid pd body :
  invalid_payload (POST_invoices body) = true → rejected (validate_Invoice pd body).
Proof.
  intros Hi. unfold validate_Invoice, model.
  destruct body as [| | | | | | | |d]; try exact I.
  unfold invalid_payload in Hi. field_cases Hi.
  - apply lacks_spec, (required_missing _ str_) in Hi. reject_by Hi.
  - apply lacks_spec, (required_missing _ float_) in Hi. reject_by Hi.
  - apply outside_spec in Hi as (v & Hv & Hout). unfold field in Hv.
    assert (rejected (optional "status" unpaid (Literal invoice_statuses) d)) as Hr.
    { unfold optional. rewrite Hv. by apply at_loc_rejected, status_outside_invoices. }
    reject_by Hr.
Qed.

Lemma ge_le_out_of_range z : (z <? 1) || (5 <? z) = true → rejected (ge_le 1 5 (VInt z)).
Proof.
  unfold ge_le; simpl. intros [H|H]%orb_true_iff.
  - by rewrite H.
  - rewrite H. by destruct (z <? 1).
Qed.

Lemma ge_le_in_range z : 1 ≤ z ≤ 5 → ge_le 1 5 (VInt z) = inr z.
Proof.
  intros [H1 H5]. unfold ge_le; simpl.
  destruct (Z.ltb_spec z 1); [lia|]. destruct (Z.ltb_spec 5 z); [lia|]. done.
Qed.

Lemma validate_Feedback_out_of_range body :
  rating_out_of_range body = true → rejected (validate_Feedback body).
Proof.
  intros Hi. unfold validate_Feedback, rating_out_of_range in *.
  destruct body as [| | | | | | | |d]; try done.
  simpl in *. apply orb_true_iff in Hi as [Hi|Hi].
  - assert (rejected (required "rating_overall" (ge_le 1 5) d)) as Hr.
    { unfold required. destruct (dict_get d "rating_overall") as [[]|]; try done.
      by apply at_loc_rejected, ge_le_out_of_range. }
    reject_by Hr.
  - assert (rejected (optional "rating_engineer" None (Optional (ge_le 1 5)) d))
      as Hr.
    { unfold optional. destruct (dict_get d "rating_engineer") as [[]|]; try done.
      apply at_loc_rejected. unfold Optional.
      pose proof (ge_le_out_of_range z Hi) as Hz. by destruct (ge_le 1 5 (VInt z)). }
    reject_by Hr.
Qed.

Lemma vap_inr {A B} (f : validated (A → B)) (x : validated A) (b : B) :
  f <*> x = inr b → ∃ g a, f = inr g ∧ x = inr a ∧ b = g a.
Proof.
  destruct f as [|g], x as [|a]; simpl; try discriminate.
  intros [= <-]. by exists g, a.
Qed.

Lemma required_set_ne {A} k k' (p : value → validated A) d v :
  k' ≠ k → required k p (dict_set d k' v) = required k p d.
Proof. intros Hne. unfold required. by rewrite dict_get_set_ne. Qed.

Lemma optional_set_ne {A} k k' (dflt : A) (p : value → validated A) d v :
  k' ≠ k → optional k dflt p (dict_set d k' v) = optional k dflt p d.
Proof. intros Hne. unfold optional. by rewrite dict_get_set_ne. Qed.

Lemma required_set_eq {A} k (p : value → validated A) d v :
  required k p (dict_set d k v) = at_loc k (p v).
Proof. unfold required. by rewrite dict_get_set_eq. Qed.

Lemma validate_Feedback_set_rating d f z :
  validate_Feedback (VDict d) = inr f →
  1 ≤ z ≤ 5 →
  validate_Feedback (VDict (dict_set d "rating_overall" (VInt z)))
  = inr (with_rating f z).
Proof.
  unfold validate_Feedback, model. intros Hv Hz.
  apply vap_inr in Hv as (g4 & follow & Hv & Hfollow & ->).
  apply vap_inr in Hv as (g3 & comments & Hv & Hcomments & ->).
  apply vap_inr in Hv as (g2 & engineer & Hv & Hengineer & ->).
  apply vap_inr in Hv as (g1 & overall & Hv & Hoverall & ->).
  apply vap_inr in Hv as (g0 & job & Hv & Hjob & ->).
  injection Hv as <-.
  rewrite required_set_eq, required_set_ne, !optional_set_ne by done.
  rewrite Hjob, Hengineer, Hcomments, Hfollow, (ge_le_in_range z Hz).
  reflexivity.
Qed.

Section Rejection.
Variable parse_datetime : value → option datetime.
Variable repr : value → string.

(** C2. (The code at the input where the claim fails.)  A valid [Asset]
    whose [site_id] is not empty and is not the 24 characters of an
    [ObjectId] is not stored: [ObjectId(asset.site_id)] raises, the reply
    is a 500 and the store is as it was. *)
Theorem create_asset_fails_on_plain_site_id env body a d :
  validate_Asset body = inr a →
  db_fault d = None →
  Asset.site_id a ≠ "" →
  ObjectId (Asset.site_id a) = None →
  app parse_datetime repr env (POST_assets body) (Some d)
  = (Response 500 (VStr "Internal Server Error"), Some d).
Proof.
  intros Hv Hf Hne Hoid. simpl. unfold with_body. rewrite Hv.
  unfold run, create_asset, mbind, App_bind, get_db, str_truthy.
  rewrite bool_decide_eq_false_2 by done. simpl. by rewrite Hoid.
Qed.

(** C3. A body for [POST /assets], [POST /jobs] or [POST /invoices] that
    lacks a required field, or gives an enumerated field a value outside
    its set, is answered with 422 whatever the store; nothing is written,
    so every later request is answered as if the body had not been sent. *)
Theorem invalid_payload_rejected env rq st :
  invalid_payload rq = true →
  ∃ detail,
    app parse_datetime repr env rq st = (Response 422 detail, st)
    ∧ ∀ env' rq',
        app parse_datetime repr env' rq' (app parse_datetime repr env rq st).2
        = app parse_datetime repr env' rq' st.
Proof.
  intros Hi.
  assert (∃ detail, app parse_datetime repr env rq st = (Response 422 detail, st))
    as [detail Hd].
  { destruct rq; try discriminate; simpl; apply with_body_rejected.
    - by apply validate_Asset_invalid.
    - by apply validate_JobRequest_invalid.
    - by apply validate_Invoice_invalid. }
  exists detail. split; [done|]. intros env' rq'. by rewrite Hd.
Qed.

(** C4. [POST /feedback] answers 422 and stores nothing when
    [rating_overall], or a [rating_engineer] that is present, is an
    integer below 1 or above 5; and a body that validates still validates
    when its [rating_overall] is set to any integer from 1 to 5, the two
    bounds included, and is then handed to the handler. *)
Theorem feedback_rating_bounds env body st :
  (rating_out_of_range body = true →
   ∃ detail,
     app parse_datetime repr env (POST_feedback body) st = (Response 422 detail, st))
  ∧ (∀ f z,
       validate_Feedback body = inr f →
       1 ≤ z ≤ 5 →
       validate_Feedback (set_field body "rating_overall" (VInt z))
       = inr (with_rating f z)
       ∧ app parse_datetime repr env
           (POST_feedback (set_field body "rating_overall" (VInt z))) st
         = run (submit_feedback (with_rating f z)) st).
Proof.
  split.
  - intros Hi. simpl. by apply with_body_rejected, validate_Feedback_out_of_range.
  - intros f z Hv Hz. destruct body as [| | | | | | | |d]; try discriminate.
    pose proof (validate_Feedback_set_rating d f z Hv Hz) as Hs.
    split; [done|]. simpl. unfold with_body. by rewrite Hs.
Qed.
End Rejection.


Lemma create_asset_fails_on_plain_site_id_witness :
  validate_Asset Sample_bodies.compressor = inr Sample_bodies.compressor_asset
  ∧ db_fault Sample.empty_db = None
  ∧ Asset.site_id Sample_bodies.compressor_asset ≠ ""
  ∧ ObjectId (Asset.site_id Sample_bodies.compressor_asset) = None
  ∧ app Sample.parse_datetime Sample.repr Sample.env
      (POST_assets Sample_bodies.compressor) (Some Sample.empty_db)
    = (Response 500 (VStr "Internal Server Error"), Some Sample.empty_db).
Proof.
  assert (Asset.site_id Sample_bodies.compressor_asset ≠ "") as Hne by discriminate.
  split; [reflexivity|]. split; [reflexivity|]. split; [exact Hne|].
  split; [reflexivity|].
  apply (create_asset_fails_on_plain_site_id Sample.parse_datetime Sample.repr
           Sample.env Sample_bodies.compressor Sample_bodies.compressor_asset
           Sample.empty_db); try reflexivity; exact Hne.
Defined.

Lemma invalid_payload_rejected_witness :
  invalid_payload (POST_assets Sample_bodies.broken_asset) = true
  ∧ ∃ detail,
      app Sample.parse_datetime Sample.repr Sample.env
        (POST_assets Sample_bodies.broken_asset) (Some Sample.empty_db)
      = (Response 422 detail, Some Sample.empty_db)
      ∧ ∀ env' rq',
          app Sample.parse_datetime Sample.repr env' rq'
            (app Sample.parse_datetime Sample.repr Sample.env
               (POST_assets Sample_bodies.broken_asset) (Some Sample.empty_db)).2
          = app Sample.parse_datetime Sample.repr env' rq' (Some Sample.empty_db).
Proof.
  split; [reflexivity|].
  apply (invalid_payload_rejected Sample.parse_datetime Sample.repr Sample.env
           (POST_assets Sample_bodies.broken_asset) (Some Sample.empty_db)).
  reflexivity.
Defined.

Lemma feedback_rating_bounds_witness :
  rating_out_of_range Sample_bodies.zero_stars = true
  ∧ (∃ detail,
       app Sample.parse_datetime Sample.repr Sample.env
         (POST_feedback Sample_bodies.zero_stars) (Some Sample.empty_db)
       = (Response 422 detail, Some Sample.empty_db))
  ∧ validate_Feedback Sample_bodies.praise = inr Sample_bodies.praise_feedback
  ∧ 1 ≤ 5 ≤ 5
  ∧ validate_Feedback (set_field Sample_bodies.praise "rating_overall" (VInt 5))
    = inr (with_rating Sample_bodies.praise_feedback 5)
  ∧ app Sample.parse_datetime Sample.repr Sample.env
      (POST_feedback (set_field Sample_bodies.praise "rating_overall" (VInt 5)))
      (Some Sample.empty_db)
    = run (submit_feedback (with_rating Sample_bodies.praise_feedback 5))
        (Some Sample.empty_db).
Proof.
  assert (1 ≤ 5 ≤ 5) as Hz by (split; discriminate).
  split; [reflexivity|]. split.
  - apply (feedback_rating_bounds Sample.parse_datetime Sample.repr Sample.env
             Sample_bodies.zero_stars (Some Sample.empty_db)).
    reflexivity.
  - split; [reflexivity|]. split; [exact Hz|].
    apply (feedback_rating_bounds Sample.parse_datetime Sample.repr Sample.env
             Sample_bodies.praise (Some Sample.empty_db)); [reflexivity | exact Hz].
Defined.

(** ** The models: dumping and validating *)

#[global] Arguments List_ : simpl never.
#[global] Arguments VStrList : simpl never.
#[global] Arguments VDictList : simpl never.
#[global] Arguments ge_le : simpl never.

Lemma validate_items_str (i : nat) (l : list string) :
  validate_items str_ i (VStr <$> l) = inr l.
Proof.
  revert i. induction l as [|s l IH]; intros i; simpl; [done|].
  by rewrite IH.
Qed.

Lemma validate_items_dict (i : nat) (l : list dict) :
  validate_items dict_ i (VDict <$> l) = inr l.
Proof.
  revert i. induction l as [|s l IH]; intros i; simpl; [done|].
  by rewrite IH.
Qed.

Lemma List_str (l : list string) : List_ str_ (VStrList l) = inr l.
Proof. apply validate_items_str. Qed.

Lemma List_dict (l : list dict) : List_ dict_ (VDictList l) = inr l.
Proof. apply validate_items_dict. Qed.

Lemma Optional_str (o : option string) : Optional str_ (VOptStr o) = inr o.
Proof. by destruct o. Qed.

Lemma Optional_datetime pd (o : option datetime) :
  (∀ t, pd (VDatetime t) = Some t) →
  Optional (datetime_ pd) (VOptDatetime o) = inr o.
Proof.
  intros Hpd. destruct o as [t|]; [|done].
  simpl. unfold datetime_. by rewrite Hpd.
Qed.

Lemma Literal_inr {A} (choices : list (string * A)) v a :
  Literal choices v = inr a → ∃ s, v = VStr s ∧ assoc s choices = Some a.
Proof.
  destruct v; simpl; try discriminate.
  destruct (assoc s choices) as [a'|] eqn:E; [|discriminate].
  intros [= <-]. by exists s.
Qed.

Lemma at_loc_inr {A} k (r : validated A) a : at_loc k r = inr a → r = inr a.
Proof. by destruct r. Qed.

Lemma ge_le_inr v z : ge_le 1 5 v = inr z → v = VInt z ∧ rating_ok z.
Proof.
  unfold ge_le, rating_ok. destruct v; simpl; try discriminate.
  destruct (Z.ltb_spec z0 1); [discriminate|].
  destruct (Z.ltb_spec 5 z0); [discriminate|].
  intros [= <-]. split; [done | lia].
Qed.

(** X1. For the models without constraints on their values ([Site],
    [Asset], [User], [AnalyticsSnapshot]) validating the dump of a record
    gives the record back. *)
Theorem dump_then_validate :
  (∀ s, validate_Site (VDict (model_dump s)) = inr s)
  ∧ (∀ a, validate_Asset (VDict (model_dump a)) = inr a)
  ∧ (∀ u, validate_User (VDict (model_dump u)) = inr u)
  ∧ (∀ n, validate_AnalyticsSnapshot (VDict (model_dump n)) = inr n).
Proof.
  split; [|split; [|split]].
  - intros [n a c s p]. by destruct a, c, s, p.
  - intros [i n t s sn m]. by destruct s, sn, m.
  - intros [o n e p r]. by destruct o, n, e, p, r.
  - intros [m j h e]. unfold validate_AnalyticsSnapshot, model, model_dump,
      AnalyticsSnapshot_model, required, optional; simpl.
    by rewrite List_dict.
Qed.

(** X2. The dump of a [Feedback] validates, and then to the same record,
    exactly when its [rating_overall] is within 1 and 5 and its
    [rating_engineer] is absent or within 1 and 5. *)
Theorem Feedback_dump_validates_iff (f : Feedback.t) :
  validate_Feedback (VDict (model_dump f)) = inr f
  ↔ rating_ok (Feedback.rating_overall f) ∧ opt_rating_ok (Feedback.rating_engineer f).
Proof.
  destruct f as [j ro re c fu]. unfold validate_Feedback, model, model_dump,
    Feedback_model, required, optional; simpl.
  destruct (ge_le 1 5 (VInt ro)) as [eo|zo] eqn:Eo.
  - split.
    + destruct re as [z|]; simpl; [destruct (ge_le 1 5 (VInt z))|]; by destruct c.
    + intros [Ho _]. rewrite (ge_le_in_range ro Ho) in Eo. discriminate.
  - apply ge_le_inr in Eo as [[= <-] Ho].
    destruct re as [z|]; simpl.
    + destruct (ge_le 1 5 (VInt z)) as [ee|ze] eqn:Ee.
      * split; [by destruct c|]. intros [_ He].
        rewrite (ge_le_in_range z He) in Ee. discriminate.
      * apply ge_le_inr in Ee as [[= <-] He]. split; [done|]. intros _.
        by destruct c.
    + split; [done|]. intros _. by destruct c.
Qed.



#[global] Arguments Optional : simpl never.
#[global] Arguments Literal : simpl never.

Lemma Literal_service_type s :
  Literal service_types (VStr (service_type_str s)) = inr s.
Proof. by destruct s. Qed.

Lemma Literal_job_status s : Literal job_statuses (VStr (job_status_str s)) = inr s.
Proof. by destruct s. Qed.

Lemma Literal_invoice_status s :
  Literal invoice_statuses (VStr (invoice_status_str s)) = inr s.
Proof. by destruct s. Qed.

(** X4. When the validation library takes a [datetime] object as it is,
    validating the dump of a [Job] or of an [Invoice] gives the record
    back. *)
Theorem dump_then_validate_dated pd (j : Job.t) (i : Invoice.t) :
  (∀ t, pd (VDatetime t) = Some t) →
  validate_Job pd (VDict (model_dump j)) = inr j
  ∧ validate_Invoice pd (VDict (model_dump i)) = inr i.
Proof.
  intros Hpd. split.
  - destruct j as [c st s si a de sf at_ tl].
    unfold validate_Job, model, model_dump, Job_model, required, optional; simpl.
    rewrite !Optional_str, Literal_service_type, Literal_job_status, List_str,
      List_dict, (Optional_datetime pd sf Hpd).
    reflexivity.
  - destruct i as [ji a d s l].
    unfold validate_Invoice, model, model_dump, Invoice_model, required, optional;
      simpl.
    rewrite Literal_invoice_status, List_dict, (Optional_datetime pd d Hpd).
    reflexivity.
Qed.

Lemma dump_then_validate_dated_witness :
  (∀ t, Sample_models.parse_datetime (VDatetime t) = Some t)
  ∧ validate_Job Sample_models.parse_datetime (VDict (model_dump Sample_models.job))
    = inr Sample_models.job
  ∧ validate_Invoice Sample_models.parse_datetime
      (VDict (model_dump Sample_models.invoice))
    = inr Sample_models.invoice.
Proof.
  split; [reflexivity|].
  apply (dump_then_validate_dated Sample_models.parse_datetime
           Sample_models.job Sample_models.invoice).
  reflexivity.
Defined.

(** X5. The [Job(...)] call of [create_job] cannot fail validation: for
    every request and time the keyword arguments it passes validate, and
    to the job that is stored, whose status is the default "New". *)
Theorem create_job_call_validates pd t (req : JobRequest.t) :
  (∀ t, pd (VDatetime t) = Some t) →
  validate_Job pd (VDict (job_kwargs t req)) = inr (new_job t req)
  ∧ dict_get (job_kwargs t req) "status" = None.
Proof.
  intros Hpd. split; [|done].
  destruct req as [st si a de sc m].
  unfold validate_Job, model, job_kwargs, new_job, required, optional; simpl.
  rewrite !Optional_str, Literal_service_type, List_str,
    (Optional_datetime pd sc Hpd).
  reflexivity.
Qed.

Lemma create_job_call_validates_witness :
  (∀ t, Sample_models.parse_datetime (VDatetime t) = Some t)
  ∧ validate_Job Sample_models.parse_datetime
      (VDict (job_kwargs Sample.noon Sample.repair))
    = inr (new_job Sample.noon Sample.repair)
  ∧ dict_get (job_kwargs Sample.noon Sample.repair) "status" = None.
Proof.
  split; [reflexivity|].
  apply (create_job_call_validates Sample_models.parse_datetime Sample.noon
           Sample.repair).
  reflexivity.
Defined.

Lemma optional_lacks {A} k (dflt : A) (p : value → validated A) d :
  dict_get d k = None → optional k dflt p d = inr dflt.
Proof. unfold optional. by intros ->. Qed.

(** Split a validated chain of fields into the results of its fields. *)
Ltac invert_fields H :=
  repeat (let g := fresh "g" in
          let a := fresh "a" in
          let Ha := fresh "Ha" in
          apply vap_inr in H as (g & a & H & Ha & ->));
  injection H as <-.

Ltac default_of k :=
  match goal with
  | Hl : dict_get ?d k = None, Ha : optional k ?dflt ?p ?d = inr ?x |- _ =>
      rewrite (optional_lacks k dflt p d Hl) in Ha; by injection Ha as <-
  end.

(** X6. A field with a default that the body omits takes the default:
    [status] is "active" for an asset and "unpaid" for an invoice,
    [asset_ids] and [media_urls] are empty for a job request, and
    [request_follow_up] is false for feedback. *)
Theorem omitted_fields_take_defaults pd body :
  (lacks body "status" = true →
   ∀ a, validate_Asset body = inr a → Asset.status a = active)
  ∧ (lacks body "status" = true →
     ∀ i, validate_Invoice pd body = inr i → Invoice.status i = unpaid)
  ∧ (lacks body "asset_ids" = true →
     ∀ r, validate_JobRequest pd body = inr r → JobRequest.asset_ids r = [])
  ∧ (lacks body "media_urls" = true →
     ∀ r, validate_JobRequest pd body = inr r → JobRequest.media_urls r = [])
  ∧ (lacks body "request_follow_up" = true →
     ∀ f, validate_Feedback body = inr f → Feedback.request_follow_up f = false).
Proof.
  destruct body as [| | | | | | | |d];
    try (repeat split; intros _ ? Hv; discriminate Hv).
  repeat split; intros Hl%lacks_spec x Hv; unfold field in Hl;
    [ unfold validate_Asset, model in Hv
    | unfold validate_Invoice, model in Hv
    | unfold validate_JobRequest, model in Hv
    | unfold validate_JobRequest, model in Hv
    | unfold validate_Feedback, model in Hv ];
    invert_fields Hv; simpl.
  - default_of "status".
  - default_of "status".
  - default_of "asset_ids".
  - default_of "media_urls".
  - default_of "request_follow_up".
Qed.

Lemma service_types_assoc s a :
  assoc s service_types = Some a → s = service_type_str a.
Proof.
  simpl. repeat case_bool_decide; subst; intros [= <-]; done.
Qed.

Lemma asset_statuses_assoc s a :
  assoc s asset_statuses = Some a → s = asset_status_str a.
Proof.
  simpl. repeat case_bool_decide; subst; intros [= <-]; done.
Qed.

Lemma invoice_statuses_assoc s a :
  assoc s invoice_statuses = Some a → s = invoice_status_str a.
Proof.
  simpl. repeat case_bool_decide; subst; intros [= <-]; done.
Qed.

(** X7. An enumerated field is taken verbatim: when a body is accepted, the
    [service_type] of the job request, and the [status] of the asset or
    invoice when the body carries one, is the very string of the body, one
    of the literals of [schemas.py] letter for letter. *)
Theorem accepted_literals_verbatim pd body :
  (∀ r, validate_JobRequest pd body = inr r →
        field body "service_type"
        = Some (VStr (service_type_str (JobRequest.service_type r))))
  ∧ (∀ a v, validate_Asset body = inr a → field body "status" = Some v →
            v = VStr (asset_status_str (Asset.status a)))
  ∧ (∀ i v, validate_Invoice pd body = inr i → field body "status" = Some v →
            v = VStr (invoice_status_str (Invoice.status i))).
Proof.
  destruct body as [| | | | | | | |d];
    try (repeat split; intros; discriminate).
  unfold field. repeat split.
  - intros r Hv. unfold validate_JobRequest, model in Hv. invert_fields Hv. simpl.
    match goal with H : required "service_type" _ _ = inr _ |- _ =>
      unfold required in H; destruct (dict_get d "service_type") as [v|];
        [|discriminate H];
      apply at_loc_inr, Literal_inr in H as (s & -> & Hs)
    end.
    by apply service_types_assoc in Hs as ->.
  - intros x v Hv Hf. unfold validate_Asset, model in Hv. invert_fields Hv. simpl.
    match goal with H : optional "status" _ _ _ = inr _ |- _ =>
      unfold optional in H; rewrite Hf in H;
      apply at_loc_inr, Literal_inr in H as (s & -> & Hs)
    end.
    by apply asset_statuses_assoc in Hs as ->.
  - intros x v Hv Hf. unfold validate_Invoice, model in Hv. invert_fields Hv. simpl.
    match goal with H : optional "status" _ _ _ = inr _ |- _ =>
      unfold optional in H; rewrite Hf in H;
      apply at_loc_inr, Literal_inr in H as (s & -> & Hs)
    end.
    by apply invoice_statuses_assoc in Hs as ->.
Qed.

Lemma omitted_fields_take_defaults_witness :
  lacks Sample_bodies.compressor "status" = true
  ∧ validate_Asset Sample_bodies.compressor = inr Sample_bodies.compressor_asset
  ∧ Asset.status Sample_bodies.compressor_asset = active.
Proof.
  split; [reflexivity|]. split; [reflexivity|].
  apply (proj1 (omitted_fields_take_defaults Sample.parse_datetime
                  Sample_bodies.compressor)); reflexivity.
Defined.

Lemma accepted_literals_verbatim_witness :
  validate_JobRequest Sample.parse_datetime Sample.repair_request = inr Sample.repair
  ∧ field Sample.repair_request "service_type"
    = Some (VStr (service_type_str (JobRequest.service_type Sample.repair))).
Proof.
  split; [reflexivity|].
  apply (proj1 (accepted_literals_verbatim Sample.parse_datetime
                  Sample.repair_request)).
  reflexivity.
Defined.

Lemma not_in_cons (k x : string) (l : list string) : k ∉ x :: l → x ≠ k ∧ k ∉ l.
Proof. intros Hk. split; [intros -> | intros ?]; apply Hk; set_solver. Qed.

(** The key that is set is none of the fields of the model. *)
Ltac other_key Hk :=
  repeat (apply not_in_cons in Hk as [? Hk]); done.

Lemma validate_Site_other_key d k v :
  k ∉ Site_fields →
  validate_Site (VDict (dict_set d k v)) = validate_Site (VDict d).
Proof.
  intros Hk. unfold validate_Site, model.
  rewrite !required_set_ne, !optional_set_ne by other_key Hk. done.
Qed.

Lemma validate_Asset_other_key d k v :
  k ∉ Asset_fields →
  validate_Asset (VDict (dict_set d k v)) = validate_Asset (VDict d).
Proof.
  intros Hk. unfold validate_Asset, model.
  rewrite !required_set_ne, !optional_set_ne by other_key Hk. done.
Qed.

Lemma validate_JobRequest_other_key pd d k v :
  k ∉ JobRequest_fields →
  validate_JobRequest pd (VDict (dict_set d k v)) = validate_JobRequest pd (VDict d).
Proof.
  intros Hk. unfold validate_JobRequest, model.
  rewrite !required_set_ne, !optional_set_ne by other_key Hk. done.
Qed.

Lemma validate_Feedback_other_key d k v :
  k ∉ Feedback_fields →
  validate_Feedback (VDict (dict_set d k v)) = validate_Feedback (VDict d).
Proof.
  intros Hk. unfold validate_Feedback, model.
  rewrite !required_set_ne, !optional_set_ne by other_key Hk. done.
Qed.

Section Bodies.
Variable parse_datetime : value → option datetime.
Variable repr : value → string.

(** X8. A key the model does not declare is ignored: setting it in the body
    changes neither the reply nor the store, for [POST /sites], [/assets],
    [/jobs] and [/feedback].  A client cannot choose the [status],
    [customer_id] or [timeline] of a job this way. *)
Theorem undeclared_key_ignored env st body k v :
  (k ∉ Site_fields →
   app parse_datetime repr env (POST_sites (set_field body k v)) st
   = app parse_datetime repr env (POST_sites body) st)
  ∧ (k ∉ Asset_fields →
     app parse_datetime repr env (POST_assets (set_field body k v)) st
     = app parse_datetime repr env (POST_assets body) st)
  ∧ (k ∉ JobRequest_fields →
     app parse_datetime repr env (POST_jobs (set_field body k v)) st
     = app parse_datetime repr env (POST_jobs body) st)
  ∧ (k ∉ Feedback_fields →
     app parse_datetime repr env (POST_feedback (set_field body k v)) st
     = app parse_datetime repr env (POST_feedback body) st).
Proof.
  destruct body as [| | | | | | | |d]; try done.
  repeat split; intros Hk; unfold app, with_body, set_field.
  - by rewrite validate_Site_other_key.
  - by rewrite validate_Asset_other_key.
  - by rewrite validate_JobRequest_other_key.
  - by rewrite validate_Feedback_other_key.
Qed.
End Bodies.

Lemma undeclared_key_ignored_witness :
  ("status" ∉ JobRequest_fields)
  ∧ app Sample.parse_datetime Sample.repr Sample.env
      (POST_jobs (set_field Sample.repair_request "status" (VStr "Closed")))
      (Some Sample.empty_db)
    = app Sample.parse_datetime Sample.repr Sample.env
        (POST_jobs Sample.repair_request) (Some Sample.empty_db).
Proof.
  assert ("status" ∉ JobRequest_fields) as Hk.
  { unfold JobRequest_fields. intros H.
    repeat (apply elem_of_cons in H as [H|H]; [discriminate H|]).
    by apply elem_of_nil in H. }
  split; [exact Hk|].
  apply (undeclared_key_ignored Sample.parse_datetime Sample.repr Sample.env
           (Some Sample.empty_db) Sample.repair_request "status" (VStr "Closed")).
  exact Hk.
Defined.

(** ** Object identifiers *)

Lemma byte_hex_round_trip (b : byte) :
  let n := Byte.to_N b in
  is_space (hex_digit (n / 16)) = false
  ∧ hex_value (hex_digit (n / 16)) = Some (n / 16)%N
  ∧ hex_value (hex_digit (n mod 16)) = Some (n mod 16)%N
  ∧ Byte.of_N (16 * (n / 16) + n mod 16) = Some b.
Proof. destruct b; vm_compute; auto. Qed.

Lemma fromhex_hexlify (bs : list byte) : fromhex (hexlify bs) = Some bs.
Proof.
  induction bs as [|b bs IH]; [done|].
  destruct (byte_hex_round_trip b) as (Hs & Hh & Hl & Hb).
  cbn [hexlify fromhex]. cbv zeta in *.
  by rewrite Hs, Hh, Hl, Hb, IH.
Qed.

Lemma ObjectId_length s o : ObjectId s = Some o → String.length s = 24%nat.
Proof.
  unfold ObjectId. destruct (Nat.eqb_spec (String.length s) 24); [done|discriminate].
Qed.

Section Assets.
Variable parse_datetime : value → option datetime.
Variable repr : value → string.

(** X9. The identifier of a stored record as the list endpoints print it,
    [str(d.get("_id"))], is text that [ObjectId(...)] in [create_asset]
    takes and turns back into the same identifier: a site's [_id] from
    [GET /sites] can be sent as the [site_id] of an asset. *)
Theorem printed_id_is_object_id (o : ObjectId_t) :
  length o = 12%nat →
  ObjectId (str repr (VObjectId o)) = Some o.
Proof.
  intros Hl. unfold str, ObjectId, ObjectId_str.
  rewrite hexlify_length, Hl. simpl. apply fromhex_hexlify.
Qed.

(** X10. On an available store [create_asset] is a plain insert for every
    asset whose [site_id] is empty or is the text of an [ObjectId]: the
    site is looked up and the result of the look-up is not used, so no site
    needs to exist. *)
Theorem create_asset_is_plain_insert (a : Asset.t) d :
  db_fault d = None →
  Asset.site_id a = "" ∨ is_Some (ObjectId (Asset.site_id a)) →
  create_asset a (Some d) = insert_and_reply "asset" a (Some d).
Proof.
  intros Hf Hs. unfold create_asset, insert_and_reply.
  unfold mbind at 1 2, App_bind, get_db, str_truthy.
  destruct Hs as [-> | [o Ho]].
  - reflexivity.
  - rewrite Ho. case_bool_decide; [reflexivity|].
    unfold lift, find_one, driver. by rewrite Hf.
Qed.

(** X11. On a store that is not configured [POST /assets] answers every
    body that validates with 500 and the detail "Database not configured",
    before looking at the [site_id]; [_collection] raises the same
    exception. *)
Theorem create_asset_unconfigured env body a :
  validate_Asset body = inr a →
  app parse_datetime repr env (POST_assets body) None
  = (Response 500 (VDict [("detail", VStr "Database not configured")]), None)
  ∧ ∀ name,
      _collection name None
      = (inl (HTTPException 500 "Database not configured"), None).
Proof. intros Hv. unfold app, with_body. by rewrite Hv. Qed.
End Assets.

Lemma printed_id_is_object_id_witness :
  length (fresh_oid 7) = 12%nat
  ∧ ObjectId (str Sample.repr (VObjectId (fresh_oid 7))) = Some (fresh_oid 7).
Proof.
  split; [reflexivity|].
  apply (printed_id_is_object_id Sample.repr (fresh_oid 7)). reflexivity.
Defined.

Lemma create_asset_is_plain_insert_witness :
  db_fault Sample.empty_db = None
  ∧ (Asset.site_id Sample_store.pump = ""
     ∨ is_Some (ObjectId (Asset.site_id Sample_store.pump)))
  ∧ create_asset Sample_store.pump (Some Sample.empty_db)
    = insert_and_reply "asset" Sample_store.pump (Some Sample.empty_db).
Proof.
  assert (is_Some (ObjectId (Asset.site_id Sample_store.pump))) as Hs.
  { exists (fresh_oid 0). reflexivity. }
  split; [reflexivity|]. split; [right; exact Hs|].
  apply (create_asset_is_plain_insert Sample_store.pump Sample.empty_db);
    [reflexivity | right; exact Hs].
Defined.

Lemma create_asset_unconfigured_witness :
  validate_Asset Sample_bodies.compressor = inr Sample_bodies.compressor_asset
  ∧ app Sample.parse_datetime Sample.repr Sample.env
      (POST_assets Sample_bodies.compressor) None
    = (Response 500 (VDict [("detail", VStr "Database not configured")]), None).
Proof.
  split; [reflexivity|].
  apply (proj1 (create_asset_unconfigured Sample.parse_datetime Sample.repr
                  Sample.env Sample_bodies.compressor
                  Sample_bodies.compressor_asset eq_refl)).
Defined.

(** ** The informational endpoints *)

Section Diagnostics.
Variable parse_datetime : value → option datetime.
Variable repr : value → string.

(** X12. The informational endpoints ([/], [/health], [/echo], [/test],
    [/schema]) never change the store and never fail on its account: in
    every state of the store the reply is 200, except 422 for an [/echo]
    body that is not a JSON object; [/echo] returns the object it was
    sent. *)
Theorem diagnostics_leave_store env rq st :
  diagnostic rq = true →
  (app parse_datetime repr env rq st).2 = st
  ∧ status_of (app parse_datetime repr env rq st).1
    = match rq with
      | POST_echo (VDict _) => 200
      | POST_echo _ => 422
      | _ => 200
      end
  ∧ ∀ d, rq = POST_echo (VDict d) →
         field (body_of (app parse_datetime repr env rq st).1) "received"
         = Some (VDict d).
Proof.
  intros Hd. destruct rq; try discriminate; try (by repeat split).
  destruct body; by repeat split; intros ? [= <-].
Qed.

(** X13. [GET /test] always returns the same six keys in the same order
    with [backend] running; [connection_status] is "Connected" exactly
    when the store is configured and reachable, otherwise no collection is
    listed; and without a configured store [database_url] reads "Not Set"
    whatever [DATABASE_URL] holds. *)
Theorem test_database_report url st :
  ∃ r,
    test_database url st = (inr (VDict r), st)
    ∧ keys r = ["backend"; "database"; "database_url"; "database_name";
                "connection_status"; "collections"]
    ∧ dict_get r "backend" = Some (VStr "✅ Running")
    ∧ (dict_get r "connection_status" = Some (VStr "Connected") ↔ available st)
    ∧ (¬ available st → dict_get r "collections" = Some (VList []))
    ∧ (st = None → dict_get r "database_url" = Some (VStr "❌ Not Set")).
Proof.
  destruct st as [d|].
  - unfold test_database, mbind, App_bind, get_db, list_collection_names, driver,
      available.
    destruct (db_fault d) as [m|] eqn:Hf; eexists; (split; [reflexivity|]);
      repeat split; try done; rewrite ?Hf; try done.
  - eexists. split; [reflexivity|]. repeat split; done.
Qed.
End Diagnostics.

Lemma diagnostics_leave_store_witness :
  diagnostic (POST_echo Sample.repair_request) = true
  ∧ (app Sample.parse_datetime Sample.repr Sample.env
       (POST_echo Sample.repair_request) None).2 = None
  ∧ status_of (app Sample.parse_datetime Sample.repr Sample.env
                 (POST_echo Sample.repair_request) None).1 = 200.
Proof.
  split; [reflexivity|].
  destruct (diagnostics_leave_store Sample.parse_datetime Sample.repr Sample.env
              (POST_echo Sample.repair_request) None eq_refl) as (Hs & Hc & _).
  split; [exact Hs | exact Hc].
Defined.

(** ** The list endpoints *)

Lemma dict_set_set (d : dict) (k : string) (v w : value) :
  dict_set (dict_set d k v) k w = dict_set d k w.
Proof.
  induction d as [|[k' v'] d IH]; simpl.
  - by rewrite bool_decide_eq_true_2.
  - destruct (bool_decide (k' = k)) eqn:E; simpl; rewrite E; [done|].
    by rewrite IH.
Qed.

Lemma dict_set_absent (d : dict) (k : string) (v : value) :
  dict_get d k = None → dict_set d k v = (d ++ [(k, v)])%list.
Proof.
  induction d as [|[k' v'] d IH]; simpl; [done|].
  destruct (bool_decide (k' = k)); [done|]. intros H. by rewrite IH.
Qed.

Lemma records_serialize repr (docs : list dict) :
  records (serialize repr docs) = stringify_id repr <$> docs.
Proof.
  unfold serialize, records. generalize (stringify_id repr <$> docs).
  intros l. induction l as [|d l IH]; csimpl; [done | by rewrite IH].
Qed.

Lemma records_respond_error (e : exn) : records (body_of (respond (inl e))) = [].
Proof. by destruct e. Qed.

Lemma filter_by_effective field x : filter_by field (effective x) = filter_by field x.
Proof.
  destruct x as [s|]; [|done]. simpl.
  destruct (str_truthy s) eqn:E; simpl; by rewrite ?E.
Qed.

Section Lists.
Variable parse_datetime : value → option datetime.
Variable repr : value → string.

(** X14. The loop [d["_id"] = str(d.get("_id"))] of the list handlers:
    doing it twice is doing it once, it touches no other key, and a
    document that has no [_id] gets the text "None" as a new last key. *)
Theorem stringify_id_idempotent (d : dict) :
  stringify_id repr (stringify_id repr d) = stringify_id repr d
  ∧ (∀ k, k ≠ "_id" → dict_get (stringify_id repr d) k = dict_get d k)
  ∧ (dict_get d "_id" = None →
     stringify_id repr d = (d ++ [("_id", VStr "None")])%list).
Proof.
  unfold stringify_id. split; [|split].
  - by rewrite dict_get_set_eq, dict_set_set.
  - intros k Hk. by rewrite dict_get_set_ne.
  - intros Hn. rewrite Hn. by apply dict_set_absent.
Qed.

(** X15. Every record in the reply of a list endpoint carries its [_id] as
    a string, in every state of the store. *)
Theorem listed_ids_are_strings env rq st (d : dict) :
  listing rq = true →
  d ∈ records (body_of (app parse_datetime repr env rq st).1) →
  ∃ s, dict_get d "_id" = Some (VStr s).
Proof.
  intros Hl.
  assert (∃ name filt limit,
            app parse_datetime repr env rq st
            = run (docs ← get_documents name filt limit; mret (serialize repr docs)) st)
    as (name & filt & limit & ->).
  { destruct rq; try discriminate; by eexists _, _, _. }
  unfold run, mbind, App_bind.
  destruct (get_documents name filt limit st) as [[e|docs] st'];
    unfold mret, App_ret; cbn [fst].
  - rewrite records_respond_error. by intros ?%elem_of_nil.
  - cbn [respond body_of]. rewrite records_serialize. intros (d0 & -> & _)%list_elem_of_fmap.
    eexists. apply dict_get_set_eq.
Qed.

(** X16. For the list endpoints a [limit] left out is the default (100 for
    sites, 200 for assets, jobs and invoices) and a filter given as the
    empty string is a filter left out: the request is answered as the one
    with the default limit and no filter. *)
Theorem query_normal_form env st limit x :
  app parse_datetime repr env (GET_sites limit) st
  = app parse_datetime repr env (GET_sites (Some (default 100 limit))) st
  ∧ app parse_datetime repr env (GET_assets limit x) st
    = app parse_datetime repr env (GET_assets (Some (default 200 limit)) (effective x)) st
  ∧ app parse_datetime repr env (GET_jobs limit x) st
    = app parse_datetime repr env (GET_jobs (Some (default 200 limit)) (effective x)) st
  ∧ app parse_datetime repr env (GET_invoices limit x) st
    = app parse_datetime repr env (GET_invoices (Some (default 200 limit)) (effective x)) st
  ∧ effective (Some "") = None.
Proof.
  unfold app, list_sites, list_assets, list_jobs, list_invoices.
  rewrite !filter_by_effective. by destruct limit.
Qed.
End Lists.

Lemma listed_ids_are_strings_witness :
  listing (GET_sites None) = true
  ∧ (∃ d, d ∈ records (body_of (app Sample.parse_datetime Sample.repr Sample.env
                                  (GET_sites None) (Some Sample_store.one_site)).1)
          ∧ ∃ s, dict_get d "_id" = Some (VStr s)).
Proof.
  split; [reflexivity|].
  exists (stringify_id Sample.repr
            (("_id", VObjectId (fresh_oid 0)) :: model_dump Sample_models.site)).
  assert (stringify_id Sample.repr
            (("_id", VObjectId (fresh_oid 0)) :: model_dump Sample_models.site)
          ∈ records (body_of (app Sample.parse_datetime Sample.repr Sample.env
                                (GET_sites None) (Some Sample_store.one_site)).1))
    as Hin by (vm_compute; apply list_elem_of_here).
  split; [exact Hin|].
  exact (listed_ids_are_strings Sample.parse_datetime Sample.repr Sample.env
           (GET_sites None) (Some Sample_store.one_site) _ eq_refl Hin).
Defined.

(** ** All errors are reported *)

Lemma errors_vap {A B} (f : validated (A → B)) (x : validated A) :
  errors (f <*> x) = (errors f ++ errors x)%list.
Proof. destruct f, x; simpl; by rewrite ?app_nil_r. Qed.

Lemma errors_required_missing {A} k (p : value → validated A) d :
  dict_get d k = None → errors (required k p d) = [mk_verror [k] missing].
Proof. unfold required. by intros ->. Qed.

Lemma with_body_errors {A} (validate : value → validated A) h body st e :
  e ∈ errors (validate body) →
  ∃ es, with_body validate h body st = (unprocessable es, st) ∧ e ∈ es.
Proof.
  unfold with_body. destruct (validate body) as [es|a]; simpl.
  - intros He. by exists es.
  - by intros ?%elem_of_nil.
Qed.

(** One of the fields of the chain reports the error: so does the chain. *)
Ltac reported_by k :=
  rewrite !errors_vap;
  match goal with
  | Hk : dict_get ?d k = None |- _ =>
      rewrite (errors_required_missing k _ d Hk)
  end;
  set_solver.

Section Reporting.
Variable parse_datetime : value → option datetime.
Variable repr : value → string.

(** X17. Validation does not stop at the first problem: the 422 reply to a
    body lists a "missing" error for each required field of the model that
    the body leaves out, and the store stays as it was. *)
Theorem every_missing_field_reported env rq st d k :
  body_of_request rq = Some (VDict d) →
  k ∈ required_fields rq →
  dict_get d k = None →
  ∃ es,
    app parse_datetime repr env rq st = (unprocessable es, st)
    ∧ mk_verror [k] missing ∈ es.
Proof.
  intros Hb Hk Hn.
  destruct rq; try discriminate; injection Hb as ->; unfold required_fields in Hk;
    try (by apply elem_of_nil in Hk);
    unfold app; apply with_body_errors;
    repeat (apply elem_of_cons in Hk as [->|Hk]); try (by apply elem_of_nil in Hk).
  - unfold validate_Site, model. reported_by "name".
  - unfold validate_Asset, model. reported_by "site_id".
  - unfold validate_Asset, model. reported_by "name".
  - unfold validate_Asset, model. reported_by "type".
  - unfold validate_JobRequest, model. reported_by "service_type".
  - unfold validate_JobRequest, model. reported_by "site_id".
  - unfold validate_Invoice, model. reported_by "job_id".
  - unfold validate_Invoice, model. reported_by "amount".
  - unfold validate_Feedback, model. reported_by "job_id".
  - unfold validate_Feedback, model. reported_by "rating_overall".
Qed.
End Reporting.

Lemma every_missing_field_reported_witness :
  body_of_request (POST_assets (VDict [("name", VStr "Pump")]))
  = Some (VDict [("name", VStr "Pump")])
  ∧ "type" ∈ required_fields (POST_assets (VDict [("name", VStr "Pump")]))
  ∧ dict_get [("name", VStr "Pump")] "type" = None
  ∧ ∃ es,
      app Sample.parse_datetime Sample.repr Sample.env
        (POST_assets (VDict [("name", VStr "Pump")])) None
      = (unprocessable es, None)
      ∧ mk_verror ["type"] missing ∈ es.
Proof.
  assert ("type" ∈ required_fields (POST_assets (VDict [("name", VStr "Pump")])))
    as Hk by (do 2 apply list_elem_of_further; apply list_elem_of_here).
  split; [reflexivity|]. split; [exact Hk|]. split; [reflexivity|].
  apply (every_missing_field_reported Sample.parse_datetime Sample.repr Sample.env
           (POST_assets (VDict [("name", VStr "Pump")])) None
           [("name", VStr "Pump")] "type"); [reflexivity | exact Hk | reflexivity].
Defined.

(** ** Time stamps *)

Lemma digit_value_below_ten (x : N) :
  (x < 10)%N → digit_value (ascii_of_N (48 + x)) = Some x.
Proof.
  intros Hb. unfold digit_value.
  rewrite N_ascii_embedding by lia.
  destruct (N.leb_spec 48 (48 + x)); [|exfalso; lia].
  destruct (N.leb_spec (48 + x) 57); [|exfalso; lia].
  simpl. f_equal. lia.
Qed.

Lemma digit_value_digit (n : N) : digit_value (digit n) = Some (n mod 10)%N.
Proof. apply digit_value_below_ten, N.mod_upper_bound. lia. Qed.

Lemma string_app_cons (c : ascii) (a b : string) :
  String c a +:+ b = String c (a +:+ b).
Proof. reflexivity. Qed.

Lemma string_app_nil (b : string) : "" +:+ b = b.
Proof. reflexivity. Qed.

Lemma string_app_assoc (a b c : string) : (a +:+ b) +:+ c = a +:+ (b +:+ c).
Proof.
  induction a as [|x a IH]; [done|].
  rewrite !string_app_cons. by f_equal.
Qed.

Lemma read_digits_snoc (w : nat) (acc : N) (s : string) :
  read_digits (S w) acc s
  = match read_digits w acc s with
    | Some (a, String c s') =>
        match digit_value c with
        | Some v => Some (10 * a + v, s')%N
        | None => None
        end
    | _ => None
    end.
Proof.
  revert acc s. induction w as [|w IH]; intros acc s.
  - by destruct s.
  - destruct s as [|c s]; [done|].
    change (read_digits (S (S w)) acc (String c s))
      with (match digit_value c with
            | Some v => read_digits (S w) (10 * acc + v) s
            | None => None
            end).
    cbn [read_digits] in *. destruct (digit_value c) as [v|]; [|done].
    apply (IH (10 * acc + v)%N s).
Qed.

Lemma read_zfill (w : nat) (n acc : N) (rest : string) :
  read_digits w acc (zfill w n +:+ rest)
  = Some (acc * 10 ^ N.of_nat w + n mod 10 ^ N.of_nat w, rest)%N.
Proof.
  revert n rest. induction w as [|w IH]; intros n rest.
  - cbn [zfill read_digits N.of_nat]. rewrite string_app_nil, N.pow_0_r, N.mod_1_r.
    do 2 f_equal. lia.
  - rewrite read_digits_snoc. cbn [zfill].
    rewrite string_app_assoc, string_app_cons, string_app_nil.
    rewrite IH, digit_value_digit.
    rewrite Nat2N.inj_succ, N.pow_succ_r'.
    rewrite (N.Div0.mod_mul_r n 10 (10 ^ N.of_nat w)).
    do 2 f_equal. lia.
Qed.

Lemma string_app_nil_r (a : string) : a +:+ "" = a.
Proof. induction a as [|x a IH]; [done|]. rewrite string_app_cons. by f_equal. Qed.

Lemma read_zfill_bounded (w : nat) (n : N) (rest : string) :
  (n < 10 ^ N.of_nat w)%N →
  read_digits w 0 (zfill w n +:+ rest) = Some (n, rest).
Proof.
  intros Hn. by rewrite read_zfill, N.mod_small.
Qed.

Lemma expect_here (c : ascii) (rest : string) :
  expect c (String c "" +:+ rest) = Some rest.
Proof.
  rewrite string_app_cons, string_app_nil. unfold expect.
  by rewrite bool_decide_eq_true_2.
Qed.

Lemma read_fraction_offset (tz : option Z) :
  read_fraction (offset_text tz) = Some (0%N, offset_text tz).
Proof.
  destruct tz as [o|]; [|done].
  unfold offset_text, format_offset. by destruct (o <? 0).
Qed.

Lemma offset_parts (a : N) :
  (a < 86400)%N →
  (a / 3600 < 100)%N ∧ (a mod 3600 / 60 < 100)%N ∧ (a mod 60 < 100)%N
  ∧ (a / 3600 * 3600 + a mod 3600 / 60 * 60 + a mod 60 = a)%N.
Proof. intros Ha. zify. Z.to_euclidean_division_equations. lia. Qed.

Lemma read_offset_text (tz : option Z) :
  match tz with
  | Some o => -86400 < o < 86400
  | None => True
  end →
  read_offset (offset_text tz) = Some tz.
Proof.
  destruct tz as [o|]; [|done]. intros Ho.
  unfold offset_text, format_offset.
  set (a := Z.to_N (Z.abs o)).
  assert (a < 86400)%N as Ha by (unfold a; lia).
  destruct (offset_parts a Ha) as (Hh & Hm & Hs & Hsum).
  assert (read_offset
            (String (if o <? 0 then "-"%char else "+"%char)
               (zfill 2 (a / 3600) +:+ ":" +:+ zfill 2 (a `mod` 3600 / 60) +:+
                (if (a `mod` 60 =? 0)%N then "" else ":" +:+ zfill 2 (a `mod` 60))))
          = Some (Some o)) as Hr.
  { unfold read_offset.
    replace (if bool_decide ((if o <? 0 then "-"%char else "+"%char) = "+"%char)
             then Some 1
             else if bool_decide ((if o <? 0 then "-"%char else "+"%char) = "-"%char)
                  then Some (-1) else None)
      with (Some (if o <? 0 then -1 else 1)) by (by destruct (o <? 0)).
    cbn [mbind option_bind].
    rewrite (read_zfill_bounded 2) by done. cbn [mbind option_bind].
    rewrite expect_here. cbn [mbind option_bind].
    rewrite (read_zfill_bounded 2) by done. cbn [mbind option_bind].
    destruct (N.eqb_spec (a `mod` 60) 0) as [Hz|Hz].
    - do 2 f_equal. destruct (Z.ltb_spec o 0); lia.
    - rewrite string_app_cons, string_app_nil.
      change (expect ":" (String ":" (zfill 2 (a `mod` 60))))
        with (Some (zfill 2 (a `mod` 60))).
      cbn [mbind option_bind].
      rewrite <- (string_app_nil_r (zfill 2 (a `mod` 60))).
      rewrite (read_zfill_bounded 2) by done. cbn [mbind option_bind].
      do 2 f_equal. destruct (Z.ltb_spec o 0); lia. }
  rewrite <- Hr. by destruct (o <? 0).
Qed.

Lemma days_in_month_le (y m : N) : (days_in_month y m ≤ 31)%N.
Proof.
  unfold days_in_month.
  destruct (m =? 2)%N; [destruct (is_leap y); lia|].
  destruct ((m =? 4) || (m =? 6) || (m =? 9) || (m =? 11))%N; lia.
Qed.

Lemma datetime_ok_bounds (t : datetime) :
  datetime_ok t = true →
  (year t < 10000 ∧ month t < 100 ∧ day t < 100 ∧ hour t < 100 ∧ minute t < 100
   ∧ second t < 100 ∧ microsecond t < 1000000)%N
  ∧ match tzoffset t with
    | Some o => -86400 < o < 86400
    | None => True
    end.
Proof.
  unfold datetime_ok. intros H.
  repeat match goal with
         | H : _ && _ = true |- _ => apply andb_true_iff in H as [H ?]
         end.
  repeat match goal with
         | H : (_ <=? _)%N = true |- _ => apply N.leb_le in H
         | H : (_ <? _)%N = true |- _ => apply N.ltb_lt in H
         end.
  pose proof (days_in_month_le (year t) (month t)).
  split; [lia|].
  destruct (tzoffset t) as [o|]; [|done].
  match goal with
  | H : _ && _ = true |- _ => apply andb_true_iff in H as [?%Z.ltb_lt ?%Z.ltb_lt]
  end.
  lia.
Qed.

Lemma isoformat_round_trip (t : datetime) :
  datetime_ok t = true → fromisoformat (isoformat t) = Some t.
Proof.
  intros Hok.
  destruct (datetime_ok_bounds t Hok) as ((Hy & Hmo & Hd & Hh & Hmi & Hs & Hus) & Htz).
  destruct t as [y mo d h mi s us tz]. cbn [year month day hour minute second
    microsecond tzoffset] in *.
  unfold isoformat, isoformat_sep, fromisoformat.
  cbn [year month day hour minute second microsecond tzoffset].
  change (match tz with Some o => format_offset o | None => "" end)
    with (offset_text tz).
  rewrite (read_zfill_bounded 4) by done. cbn [mbind option_bind].
  rewrite expect_here. cbn [mbind option_bind].
  rewrite (read_zfill_bounded 2) by done. cbn [mbind option_bind].
  rewrite expect_here. cbn [mbind option_bind].
  rewrite (read_zfill_bounded 2) by done. cbn [mbind option_bind].
  rewrite expect_here. cbn [mbind option_bind].
  rewrite (read_zfill_bounded 2) by done. cbn [mbind option_bind].
  rewrite expect_here. cbn [mbind option_bind].
  rewrite (read_zfill_bounded 2) by done. cbn [mbind option_bind].
  rewrite expect_here. cbn [mbind option_bind].
  rewrite (read_zfill_bounded 2) by done. cbn [mbind option_bind].
  destruct (N.eqb_spec us 0) as [->|Hne].
  - rewrite string_app_nil, read_fraction_offset. cbn [mbind option_bind].
    rewrite (read_offset_text tz Htz). cbn [mbind option_bind].
    by rewrite Hok.
  - rewrite string_app_assoc, string_app_cons, string_app_nil.
    change (read_fraction (String "." (zfill 6 us +:+ offset_text tz)))
      with (read_digits 6 0 (zfill 6 us +:+ offset_text tz)).
    rewrite (read_zfill_bounded 6) by done. cbn [mbind option_bind].
    rewrite (read_offset_text tz Htz). cbn [mbind option_bind].
    by rewrite Hok.
Qed.

(** X18. The time stamps the service writes can be read back: for a clock
    reading [t] within the ranges of [datetime], the [time] of the replies
    of [/health] and [/echo] and the [at] of the timeline entry of a new
    job are ISO 8601 text that [fromisoformat] turns into [t] again. *)
Theorem timestamps_read_back (t : datetime) (payload : dict) (req : JobRequest.t)
    (st : store) :
  datetime_ok t = true →
  (∃ v, health t st = (inr v, st) ∧ time_of v "time" = Some t)
  ∧ (∃ v, echo t payload st = (inr v, st) ∧ time_of v "time" = Some t)
  ∧ (∃ e, Job.timeline (new_job t req) = [e] ∧ time_of (VDict e) "at" = Some t).
Proof.
  intros Hok. pose proof (isoformat_round_trip t Hok) as Hr.
  repeat split; eexists; (split; [reflexivity|]); exact Hr.
Qed.

Lemma timestamps_read_back_witness :
  datetime_ok Sample_times.kolkata = true
  ∧ ∃ v, health Sample_times.kolkata None = (inr v, None)
         ∧ time_of v "time" = Some Sample_times.kolkata.
Proof.
  split; [reflexivity|].
  apply (proj1 (timestamps_read_back Sample_times.kolkata [] Sample.repair None
                  eq_refl)).
Defined.

(** ** Insert, then list *)

Lemma in_take_app {A} (n : nat) (l : list A) (x : A) :
  (length l < n)%nat → x ∈ take n (l ++ [x]).
Proof.
  intros Hn. rewrite take_ge by (rewrite length_app; simpl; lia).
  apply elem_of_app. right. apply list_elem_of_here.
Qed.

Section Round_trip.
Variable parse_datetime : value → option datetime.
Variable repr : value → string.

(** X19. With the gateway as the specification describes it, a site that
    [POST /sites] accepted on an available store is in the reply of
    [GET /sites] under the identifier that the POST returned, with the
    fields of the validated record, whenever the limit exceeds the number
    of sites stored before it. *)
Theorem posted_site_is_listed env env' body site d (n : Z) :
  validate_Site body = inr site →
  db_fault d = None →
  (length (collection d "site") < Z.to_nat n)%nat →
  ∃ id d',
    app parse_datetime repr env (POST_sites body) (Some d)
    = (Response 200 (VDict [("_id", VStr id)]), Some d')
    ∧ (("_id", VStr id) :: model_dump site)
      ∈ records (body_of (app parse_datetime repr env' (GET_sites (Some n))
                            (Some d')).1).
Proof.
  intros Hv Hf Hn.
  exists (ObjectId_str (fresh_oid (next_id d))), (inserted d "site" site).
  split.
  - unfold app, with_body. rewrite Hv. unfold create_site.
    by rewrite (run_create_document "site" _ (λ i, VDict [("_id", VStr i)])).
  - unfold app, or_default, list_sites, run, mbind, App_bind.
    rewrite get_documents_available by done.
    unfold mret, App_ret. cbn [fst respond body_of].
    rewrite records_serialize, matches_nil, collection_inserted.
    apply list_elem_of_fmap.
    exists (("_id", VObjectId (fresh_oid (next_id d))) :: model_dump site).
    split; [reflexivity|]. by apply in_take_app.
Qed.
End Round_trip.

Lemma posted_site_is_listed_witness :
  validate_Site (VDict (model_dump Sample_models.site)) = inr Sample_models.site
  ∧ db_fault Sample.empty_db = None
  ∧ (length (collection Sample.empty_db "site") < Z.to_nat 100)%nat
  ∧ ∃ id d',
      app Sample.parse_datetime Sample.repr Sample.env
        (POST_sites (VDict (model_dump Sample_models.site))) (Some Sample.empty_db)
      = (Response 200 (VDict [("_id", VStr id)]), Some d')
      ∧ (("_id", VStr id) :: model_dump Sample_models.site)
        ∈ records (body_of (app Sample.parse_datetime Sample.repr Sample.env
                              (GET_sites (Some 100)) (Some d')).1).
Proof.
  assert (length (collection Sample.empty_db "site") < Z.to_nat 100)%nat as Hn
    by (vm_compute; lia).
  split; [reflexivity|]. split; [reflexivity|]. split; [exact Hn|].
  apply (posted_site_is_listed Sample.parse_datetime Sample.repr Sample.env
           Sample.env (VDict (model_dump Sample_models.site)) Sample_models.site
           Sample.empty_db 100); [reflexivity | reflexivity | exact Hn].
Defined.
